(** * SelectCite: the citation-resolution pipeline of [js/background.js]

    A shallow embedding of the background service worker of the SelectCite
    browser extension, with the properties of its resolution pipeline.

    The repository ships two variants of the worker: the one that extracts a
    paper identifier and a BibTeX link from the Scholar responses (module
    [Deep]) and the one that only opens the Scholar search page (module
    [Simple]).

    Conventions of the embedding.
    - A JavaScript string is the list of its UTF-16 code units ([jsstring]).
    - The built-ins the worker calls ([String.prototype.trim], [replace],
      [match] with its regular expressions, [JSON.parse],
      [encodeURIComponent]) are written out after ECMA-262.
    - [fetch], [chrome.tabs.create] and [chrome.notifications.create] are the
      commands of a small free monad [prog]; a [world] answers the commands,
      and [run] gives the trace of the calls made and the way the promise of
      an [async] function settles.
    - [console.log], [console.warn] and [console.error] influence neither
      control flow nor any call to a collaborator; they are left out. *)

From Stdlib Require Import List NArith ZArith Bool Ascii String Lia.
Import ListNotations.
Open Scope N_scope.

Set Implicit Arguments.
Set Warnings "-register-all".

(* ================================================================== *)
(** ** JavaScript strings *)

Module JsString.

Definition code_unit := N.
Definition jsstring := list code_unit.

(** A literal: the code units of an ASCII text. *)
Definition js (s : string) : jsstring :=
  map N_of_ascii (list_ascii_of_string s).

(** The same, with every apostrophe of the text standing for a double
    quote (code unit 34); used to write bodies that hold JSON or HTML. *)
Definition jsq (s : string) : jsstring :=
  map (fun c => if c =? 39 then 34 else c) (js s).

Definition dq : code_unit := 34.

Fixpoint eqb (a b : jsstring) : bool :=
  match a, b with
  | [], [] => true
  | x :: a', y :: b' => (x =? y) && eqb a' b'
  | _, _ => false
  end.

(** Every element is a 16-bit code unit. *)
Definition code_units (s : jsstring) : Prop := Forall (fun c => c < 65536) s.

(** [WhiteSpace] and [LineTerminator] of ECMA-262: what [trim] removes and
    what the class [\s] of a regular expression matches. *)
Definition is_space (c : code_unit) : bool :=
  (c =? 9) || (c =? 10) || (c =? 11) || (c =? 12) || (c =? 13) || (c =? 32)
  || (c =? 160) || (c =? 5760) || ((8192 <=? c) && (c <=? 8202))
  || (c =? 8232) || (c =? 8233) || (c =? 8239) || (c =? 8287)
  || (c =? 12288) || (c =? 65279).

(** [LineTerminator]: what the class [.] of a regular expression refuses. *)
Definition is_line_terminator (c : code_unit) : bool :=
  (c =? 10) || (c =? 13) || (c =? 8232) || (c =? 8233).

Fixpoint trim_start (s : jsstring) : jsstring :=
  match s with
  | c :: s' => if is_space c then trim_start s' else s
  | [] => []
  end.

Definition trim_end (s : jsstring) : jsstring :=
  rev (trim_start (rev s)).

(** [String.prototype.trim]. *)
Definition trim (s : jsstring) : jsstring := trim_end (trim_start s).

(** [s.replace(/\s+/g, by)]: every maximal run of white space is replaced
    by [by], from left to right.  [in_run] tells that the previous code
    unit was white space, so that the run has been replaced already. *)
Fixpoint replace_runs (by_ : jsstring) (in_run : bool) (s : jsstring)
  : jsstring :=
  match s with
  | [] => []
  | c :: s' =>
      if is_space c then
        if in_run then replace_runs by_ true s'
        else by_ ++ replace_runs by_ true s'
      else c :: replace_runs by_ false s'
  end.

Definition replace_spaces (by_ : jsstring) (s : jsstring) : jsstring :=
  replace_runs by_ false s.

(** [s.replace(pat, by)] with a string pattern: the first occurrence of
    [pat] is replaced, the rest of [s] is kept. *)
Fixpoint is_prefix (p s : jsstring) : bool :=
  match p, s with
  | [], _ => true
  | x :: p', y :: s' => (x =? y) && is_prefix p' s'
  | _ :: _, [] => false
  end.

Fixpoint replace_first (pat by_ : jsstring) (s : jsstring) : jsstring :=
  if is_prefix pat s then by_ ++ skipn (List.length pat) s
  else match s with
       | [] => []
       | c :: s' => c :: replace_first pat by_ s'
       end.

End JsString.

Import JsString.

(* ================================================================== *)
(** ** Regular expressions (ECMA-262, 22.2.2: backtracking matchers) *)

Module Regex.

(** The atoms the worker's expressions are made of.  [Star true cls] is the
    greedy [cls*], [Star false cls] the lazy [cls*?], [Plus cls] the greedy
    [cls+]. *)
Inductive node :=
| Chr (c : code_unit)
| Star (greedy : bool) (cls : code_unit -> bool)
| Plus (cls : code_unit -> bool).

(** An expression [pre(grp)post] with its one capturing group. *)
Record regex := Regex { pre : list node; grp : list node; post : list node }.

(** Character classes: [.], [[^c]] and [\s] (the latter is [is_space]). *)
Definition dot (c : code_unit) : bool := negb (is_line_terminator c).
Definition not_chr (x : code_unit) (c : code_unit) : bool := negb (c =? x).

Definition lit (s : string) : list node := map Chr (js s).
Definition litq (s : string) : list node := map Chr (jsq s).

Section Matcher.
Variable R : Type.

(** Greedy repetition: the longest run first, shorter ones on failure of
    the continuation [k]. *)
Fixpoint star_greedy (cls : code_unit -> bool)
         (k : jsstring -> option R) (s : jsstring) : option R :=
  match s with
  | c :: s' =>
      if cls c then
        match star_greedy cls k s' with
        | Some r => Some r
        | None => k s
        end
      else k s
  | [] => k s
  end.

(** Lazy repetition: the continuation first, one more code unit on its
    failure. *)
Fixpoint star_lazy (cls : code_unit -> bool)
         (k : jsstring -> option R) (s : jsstring) : option R :=
  match k s with
  | Some r => Some r
  | None =>
      match s with
      | c :: s' => if cls c then star_lazy cls k s' else None
      | [] => None
      end
  end.

(** A sequence of atoms against the input [s], then the continuation on
    what is left. *)
Fixpoint seq (r : list node) (k : jsstring -> option R) (s : jsstring)
  : option R :=
  match r with
  | [] => k s
  | Chr c :: r' =>
      match s with
      | x :: s' => if x =? c then seq r' k s' else None
      | [] => None
      end
  | Star true cls :: r' => star_greedy cls (seq r' k) s
  | Star false cls :: r' => star_lazy cls (seq r' k) s
  | Plus cls :: r' =>
      match s with
      | x :: s' => if cls x then star_greedy cls (seq r' k) s' else None
      | [] => None
      end
  end.
End Matcher.

(** The expression anchored at the start of [s]: the text of group 1. *)
Definition exec_at (p : regex) (s : jsstring) : option jsstring :=
  seq (pre p)
      (fun s1 =>
         seq (grp p)
             (fun s2 =>
                seq (post p)
                    (fun _ => Some (firstn (List.length s1 - List.length s2)%nat s1)) s2)
             s1)
      s.

(** [s.match(p)] for an expression without the [g] flag: the first start
    position at which [p] matches; the result is [match[1]], and [None] is
    [null]. *)
Fixpoint regex_match (p : regex) (s : jsstring) : option jsstring :=
  match exec_at p s with
  | Some c => Some c
  | None =>
      match s with
      | _ :: s' => regex_match p s'
      | [] => None
      end
  end.

End Regex.
Import Regex.

(* ================================================================== *)
(** ** JSON values and [JSON.parse] (ECMA-262, 25.5.1; ECMA-404) *)

Module Json.

(** The mathematical value of a number token: [(-1)^neg * mant * 10^exp]. *)
Record decimal := Decimal { d_neg : bool; d_mant : N; d_exp : Z }.

Inductive json :=
| JNull
| JBool (b : bool)
| JNum (d : decimal)
| JStr (s : jsstring)
| JArr (l : list json)
| JObj (m : list (jsstring * json)).

(** A JavaScript value that comes out of [JSON.parse] or out of a property
    read on such a value; [None] is [undefined]. *)
Definition jsval := option json.

Definition is_json_ws (c : code_unit) : bool :=
  (c =? 32) || (c =? 9) || (c =? 10) || (c =? 13).

Fixpoint skip_ws (s : jsstring) : jsstring :=
  match s with
  | c :: s' => if is_json_ws c then skip_ws s' else s
  | [] => []
  end.

Definition digit_val (c : code_unit) : option N :=
  if (48 <=? c) && (c <=? 57) then Some (c - 48) else None.

Definition hex_val (c : code_unit) : option N :=
  if (48 <=? c) && (c <=? 57) then Some (c - 48)
  else if (65 <=? c) && (c <=? 70) then Some (c - 55)
  else if (97 <=? c) && (c <=? 102) then Some (c - 87)
  else None.

Definition hex4 (a b c d : code_unit) : option code_unit :=
  match hex_val a, hex_val b, hex_val c, hex_val d with
  | Some x, Some y, Some z, Some w => Some (((x * 16 + y) * 16 + z) * 16 + w)
  | _, _, _, _ => None
  end.

(** The character an escape [\e] stands for ([\u] apart). *)
Definition simple_escape (e : code_unit) : option code_unit :=
  if (e =? 34) || (e =? 92) || (e =? 47) then Some e
  else if e =? 98 then Some 8
  else if e =? 102 then Some 12
  else if e =? 110 then Some 10
  else if e =? 114 then Some 13
  else if e =? 116 then Some 9
  else None.

Definition prepend {A B} (x : A) (r : option (list A * B))
  : option (list A * B) :=
  match r with
  | Some (l, rest) => Some (x :: l, rest)
  | None => None
  end.

(** The rest of a string token, after its opening quote: the string and
    what follows the closing quote. *)
Fixpoint parse_string (s : jsstring) : option (jsstring * jsstring) :=
  match s with
  | [] => None
  | c :: s1 =>
      if c =? 34 then Some ([], s1)
      else if c =? 92 then
        match s1 with
        | e :: s2 =>
            if e =? 117 then
              match s2 with
              | h1 :: h2 :: h3 :: h4 :: s3 =>
                  match hex4 h1 h2 h3 h4 with
                  | Some u => prepend u (parse_string s3)
                  | None => None
                  end
              | _ => None
              end
            else
              match simple_escape e with
              | Some x => prepend x (parse_string s2)
              | None => None
              end
        | [] => None
        end
      else if c <? 32 then None
      else prepend c (parse_string s1)
  end.

(** The longest run of decimal digits at the head of [s]. *)
Fixpoint read_digits (s : jsstring) : list N * jsstring :=
  match s with
  | c :: s' =>
      match digit_val c with
      | Some d => let (ds, rest) := read_digits s' in (d :: ds, rest)
      | None => ([], s)
      end
  | [] => ([], [])
  end.

Definition digits_value (ds : list N) : N :=
  fold_left (fun acc d => acc * 10 + d) ds 0.

(** An optional sign: [Some true] for [-], [Some false] for [+]. *)
Definition read_sign (plus_too : bool) (s : jsstring) : option bool * jsstring :=
  match s with
  | c :: s' =>
      if c =? 45 then (Some true, s')
      else if plus_too && (c =? 43) then (Some false, s')
      else (None, s)
  | [] => (None, s)
  end.

Definition is_minus (sg : option bool) : bool :=
  match sg with
  | Some true => true
  | _ => false
  end.

(** An optional exponent part [e], [e+] or [e-] with its digits; [None]
    when an exponent is begun and has no digit. *)
Definition read_exponent (s : jsstring) : option (Z * jsstring) :=
  match s with
  | c :: s1 =>
      if (c =? 101) || (c =? 69) then
        let (sg, s2) := read_sign true s1 in
        let (ds, s3) := read_digits s2 in
        match ds with
        | [] => None
        | _ =>
            let v := Z.of_N (digits_value ds) in
            Some (if is_minus sg then (- v)%Z else v, s3)
        end
      else Some (0%Z, s)
  | [] => Some (0%Z, s)
  end.

(** A number token: an optional [-], the integer part ([0], or digits that
    do not start with [0]), an optional fraction ([.] and digits) and an
    optional exponent. *)
Definition parse_number (s : jsstring) : option (decimal * jsstring) :=
  let (sg, s1) := read_sign false s in
  let (ip, s2) := read_digits s1 in
  match ip with
  | [] => None
  | d0 :: more =>
      if (d0 =? 0) && negb (match more with [] => true | _ => false end)
      then None
      else
        let frac :=
          match s2 with
          | c :: s3 =>
              if c =? 46 then
                let (fp, s4) := read_digits s3 in
                match fp with
                | [] => None
                | _ => Some (fp, s4)
                end
              else Some ([], s2)
          | [] => Some ([], s2)
          end in
        match frac with
        | None => None
        | Some (fp, s4) =>
            match read_exponent s4 with
            | None => None
            | Some (e, s5) =>
                Some (Decimal (is_minus sg)
                              (digits_value (ip ++ fp))
                              (e - Z.of_nat (List.length fp))%Z,
                      s5)
            end
        end
  end.

(** An object keeps its members in the order of the text; a later member
    overrides an earlier one of the same name. *)
Fixpoint lookup (k : jsstring) (m : list (jsstring * json)) : jsval :=
  match m with
  | [] => None
  | (k', v) :: m' =>
      match lookup k m' with
      | Some w => Some w
      | None => if JsString.eqb k k' then Some v else None
      end
  end.

(** A value at the head of [s] (after white space) and what follows it.
    [fuel] bounds the number of nested calls; [JSON_parse] gives enough. *)
Fixpoint parse_value (fuel : nat) (s : jsstring) : option (json * jsstring) :=
  match fuel with
  | O => None
  | S fuel' =>
      match skip_ws s with
      | [] => None
      | c :: t =>
          if c =? 123 then
            match skip_ws t with
            | c' :: t' =>
                if c' =? 125 then Some (JObj [], t')
                else parse_members fuel' [] t
            | [] => None
            end
          else if c =? 91 then
            match skip_ws t with
            | c' :: t' =>
                if c' =? 93 then Some (JArr [], t')
                else parse_elements fuel' [] t
            | [] => None
            end
          else if c =? 34 then
            match parse_string t with
            | Some (x, r) => Some (JStr x, r)
            | None => None
            end
          else if is_prefix (js "true") (c :: t) then
            Some (JBool true, skipn 4 (c :: t))
          else if is_prefix (js "false") (c :: t) then
            Some (JBool false, skipn 5 (c :: t))
          else if is_prefix (js "null") (c :: t) then
            Some (JNull, skipn 4 (c :: t))
          else
            match parse_number (c :: t) with
            | Some (d, r) => Some (JNum d, r)
            | None => None
            end
      end
  end

with parse_elements (fuel : nat) (acc : list json) (s : jsstring)
  : option (json * jsstring) :=
  match fuel with
  | O => None
  | S fuel' =>
      match parse_value fuel' s with
      | None => None
      | Some (v, r) =>
          match skip_ws r with
          | c :: r' =>
              if c =? 44 then parse_elements fuel' (v :: acc) r'
              else if c =? 93 then Some (JArr (rev (v :: acc)), r')
              else None
          | [] => None
          end
      end
  end

with parse_members (fuel : nat) (acc : list (jsstring * json)) (s : jsstring)
  : option (json * jsstring) :=
  match fuel with
  | O => None
  | S fuel' =>
      match skip_ws s with
      | c :: t =>
          if c =? 34 then
            match parse_string t with
            | Some (key, r) =>
                match skip_ws r with
                | c2 :: r2 =>
                    if c2 =? 58 then
                      match parse_value fuel' r2 with
                      | Some (v, r3) =>
                          match skip_ws r3 with
                          | c3 :: r4 =>
                              if c3 =? 44 then
                                parse_members fuel' ((key, v) :: acc) r4
                              else if c3 =? 125 then
                                Some (JObj (rev ((key, v) :: acc)), r4)
                              else None
                          | [] => None
                          end
                      | None => None
                      end
                    else None
                | [] => None
                end
            | None => None
            end
          else None
      | [] => None
      end
  end.

(** [JSON.parse(s)]: [None] is the [SyntaxError] it throws. *)
Definition JSON_parse (s : jsstring) : option json :=
  match parse_value (2 * List.length s + 2) s with
  | Some (v, r) =>
      match skip_ws r with
      | [] => Some v
      | _ :: _ => None
      end
  | None => None
  end.

(** *** Reading the parsed value

    The worker reads the properties [r], [l], [f], [u] and [i], the property
    [length] and the index [0], tests values for truthiness and compares one
    with [0].  A result [None] of the functions below is the [TypeError] the
    operation throws. *)

Definition truthy (v : jsval) : bool :=
  match v with
  | None | Some JNull => false
  | Some (JBool b) => b
  | Some (JNum d) =>
      negb ((d_mant d =? 0)
            || ((d_exp d <? 0)%Z
                && (d_mant d * 2 ^ 1075 <=? 10 ^ Z.to_N (- d_exp d))))
  | Some (JStr s) => match s with [] => false | _ => true end
  | Some (JArr _) | Some (JObj _) => true
  end.

(** [v.k] for a name [k] that no prototype object defines (as [r], [l],
    [f], [u], [i]): an own property of an object, [undefined] on any other
    value, a [TypeError] on [null] and [undefined]. *)
Definition get_prop (k : jsstring) (v : jsval) : option jsval :=
  match v with
  | None | Some JNull => None
  | Some (JObj m) => Some (lookup k m)
  | Some _ => Some None
  end.

Definition number_of_nat (n : nat) : json :=
  JNum (Decimal false (N.of_nat n) 0).

(** [v.length]. *)
Definition get_length (v : jsval) : option jsval :=
  match v with
  | None | Some JNull => None
  | Some (JArr l) => Some (Some (number_of_nat (List.length l)))
  | Some (JStr s) => Some (Some (number_of_nat (List.length s)))
  | Some (JObj m) => Some (lookup (js "length") m)
  | Some _ => Some None
  end.

(** [v[0]]. *)
Definition get_index0 (v : jsval) : option jsval :=
  match v with
  | None | Some JNull => None
  | Some (JArr l) => Some (nth_error l 0)
  | Some (JStr s) =>
      Some (match s with c :: _ => Some (JStr [c]) | [] => None end)
  | Some (JObj m) => Some (lookup (js "0") m)
  | Some _ => Some None
  end.

(** The sign of a number, which is all that [x > 0] looks at. *)
Inductive numclass := NaN | Zero | Pos | Neg.

(** A decimal value converted to a double is zero when it is at most
    [2^-1075], half of the least positive double. *)
Definition class_of_decimal (d : decimal) : numclass :=
  if negb (truthy (Some (JNum d))) then Zero
  else if d_neg d then Neg else Pos.

(** The digits of a non-decimal integer literal [0x..], [0o..], [0b..]. *)
Definition radix_digits (s : jsstring) : option (list N) :=
  match s with
  | z :: x :: ((_ :: _) as ds) =>
      let radix :=
        if (x =? 120) || (x =? 88) then 16
        else if (x =? 111) || (x =? 79) then 8
        else if (x =? 98) || (x =? 66) then 2
        else 0 in
      if (z =? 48) && negb (radix =? 0) then
        fold_right
          (fun c acc =>
             match hex_val c, acc with
             | Some d, Some l => if d <? radix then Some (d :: l) else None
             | _, _ => None
             end)
          (Some []) ds
      else None
  | _ => None
  end.

(** [StringToNumber] (ECMA-262, 7.1.4.1.1), up to the sign of the result. *)
Definition string_class (s : jsstring) : numclass :=
  match trim s with
  | [] => Zero
  | t =>
      match radix_digits t with
      | Some ds => if forallb (N.eqb 0) ds then Zero else Pos
      | None =>
          let (sg, t1) := read_sign true t in
          if JsString.eqb t1 (js "Infinity") then
            if is_minus sg then Neg else Pos
          else
            let (ip, s2) := read_digits t1 in
            let '(fp, s4) :=
              match s2 with
              | c :: s3 => if c =? 46 then read_digits s3 else ([], s2)
              | [] => ([], s2)
              end in
            match ip ++ fp, read_exponent s4 with
            | _ :: _, Some (e, []) =>
                class_of_decimal
                  (Decimal (is_minus sg) (digits_value (ip ++ fp))
                           (e - Z.of_nat (List.length fp))%Z)
            | _, _ => NaN
            end
      end
  end.

(** [ToPrimitive] on a parsed value throws when it meets an object with a
    member named [toString]: the member is not callable, and the inherited
    [valueOf] returns the object itself.  On an array it goes through
    [join], which converts every element. *)
Fixpoint to_primitive_throws (v : json) : bool :=
  match v with
  | JObj m => match lookup (js "toString") m with Some _ => true | None => false end
  | JArr l => existsb to_primitive_throws l
  | _ => false
  end.

(** [ToNumber] of a parsed value that [ToPrimitive] accepts, up to the
    sign.  An array is converted through its [join]: the empty text for no
    element, the text of the element for one, a text with a comma for more. *)
Fixpoint number_class (v : json) : numclass :=
  match v with
  | JNull => Zero
  | JBool b => if b then Pos else Zero
  | JNum d => class_of_decimal d
  | JStr s => string_class s
  | JArr [] => Zero
  | JArr [e] =>
      match e with
      | JNull => Zero
      | JBool _ | JObj _ => NaN
      | _ => number_class e
      end
  | JArr _ => NaN
  | JObj _ => NaN
  end.

(** [v > 0]. *)
Definition gt_zero (v : jsval) : option bool :=
  match v with
  | None => Some false
  | Some j =>
      if to_primitive_throws j then None
      else Some (match number_class j with Pos => true | _ => false end)
  end.

End Json.
Import Json.

(* ================================================================== *)
(** ** [encodeURIComponent] and [decodeURIComponent] (ECMA-262, 19.2.6) *)

Module Uri.

(** The code units [encodeURIComponent] leaves as they are: letters,
    digits and [- _ . ! ~ * ' ( )]. *)
Definition uri_unescaped (c : code_unit) : bool :=
  ((65 <=? c) && (c <=? 90)) || ((97 <=? c) && (c <=? 122))
  || ((48 <=? c) && (c <=? 57))
  || (c =? 45) || (c =? 95) || (c =? 46) || (c =? 33) || (c =? 126)
  || (c =? 42) || (c =? 39) || (c =? 40) || (c =? 41).

Definition is_lead (c : code_unit) : bool := (55296 <=? c) && (c <=? 56319).
Definition is_trail (c : code_unit) : bool := (56320 <=? c) && (c <=? 57343).

(** A Unicode scalar value: a code point that is not a surrogate. *)
Definition scalar (cp : N) : Prop :=
  cp < 1114112 /\ ~ (55296 <= cp <= 57343).

(** The code point of a surrogate pair. *)
Definition pair_code_point (hi lo : code_unit) : N :=
  (hi - 55296) * 1024 + (lo - 56320) + 65536.

(** The octets of the UTF-8 form of a code point. *)
Definition utf8 (cp : N) : list N :=
  if cp <? 128 then [cp]
  else if cp <? 2048 then [192 + cp / 64; 128 + cp mod 64]
  else if cp <? 65536 then
    [224 + cp / 4096; 128 + (cp / 64) mod 64; 128 + cp mod 64]
  else
    [240 + cp / 262144; 128 + (cp / 4096) mod 64; 128 + (cp / 64) mod 64;
     128 + cp mod 64].

Definition hex_digit (d : N) : code_unit :=
  if d <? 10 then 48 + d else 55 + d.

(** The escape sequence [%XX] of an octet, in upper-case digits. *)
Definition escape (b : N) : jsstring :=
  [37; hex_digit (b / 16); hex_digit (b mod 16)].

Definition escape_all (bs : list N) : jsstring := flat_map escape bs.

(** [encodeURIComponent(s)]; [None] is the [URIError] thrown at a
    surrogate that is not part of a pair. *)
Fixpoint encodeURIComponent (s : jsstring) : option jsstring :=
  match s with
  | [] => Some []
  | c :: t =>
      if uri_unescaped c then option_map (cons c) (encodeURIComponent t)
      else if is_lead c then
        match t with
        | d :: t' =>
            if is_trail d then
              option_map (app (escape_all (utf8 (pair_code_point c d))))
                         (encodeURIComponent t')
            else None
        | [] => None
        end
      else if is_trail c then None
      else option_map (app (escape_all (utf8 c))) (encodeURIComponent t)
  end.

(** What an encoded text is made of: a code unit taken as it is, or the
    octet of an escape sequence. *)
Inductive item := Lit (c : code_unit) | Oct (b : N).

(** The escape sequences of a text are read from left to right; a [%]
    that two hexadecimal digits do not follow is a [URIError]. *)
Fixpoint unescape (s : jsstring) : option (list item) :=
  match s with
  | [] => Some []
  | c :: s1 =>
      if c =? 37 then
        match s1 with
        | h1 :: h2 :: s2 =>
            match hex_val h1, hex_val h2 with
            | Some x, Some y => option_map (cons (Oct (x * 16 + y))) (unescape s2)
            | _, _ => None
            end
        | _ => None
        end
      else option_map (cons (Lit c)) (unescape s1)
  end.

Definition is_cont (b : N) : bool := (128 <=? b) && (b <=? 191).

(** The code units of a code point. *)
Definition utf16 (cp : N) : jsstring :=
  if cp <? 65536 then [cp]
  else [55296 + (cp - 65536) / 1024; 56320 + (cp - 65536) mod 1024].

(** A code point decoded from [n] octets is accepted when it needs that
    many octets and is a Unicode scalar value. *)
Definition valid_code_point (least cp : N) : bool :=
  (least <=? cp) && (cp <=? 1114111)
  && negb ((55296 <=? cp) && (cp <=? 57343)).

(** The octets are decoded as UTF-8.  An octet below 128 is a code unit;
    an octet with [n] leading one bits (2, 3 or 4) starts a sequence of
    [n] octets, which have to follow as escape sequences. *)
Fixpoint decode_items (l : list item) : option jsstring :=
  match l with
  | [] => Some []
  | Lit c :: r => option_map (cons c) (decode_items r)
  | Oct b :: r =>
      if b <? 128 then option_map (cons b) (decode_items r)
      else if (192 <=? b) && (b <? 224) then
        match r with
        | Oct b2 :: r2 =>
            let cp := (b - 192) * 64 + (b2 - 128) in
            if is_cont b2 && valid_code_point 128 cp
            then option_map (app (utf16 cp)) (decode_items r2)
            else None
        | _ => None
        end
      else if (224 <=? b) && (b <? 240) then
        match r with
        | Oct b2 :: Oct b3 :: r3 =>
            let cp := (b - 224) * 4096 + (b2 - 128) * 64 + (b3 - 128) in
            if is_cont b2 && is_cont b3 && valid_code_point 2048 cp
            then option_map (app (utf16 cp)) (decode_items r3)
            else None
        | _ => None
        end
      else if (240 <=? b) && (b <? 248) then
        match r with
        | Oct b2 :: Oct b3 :: Oct b4 :: r4 =>
            let cp := (b - 240) * 262144 + (b2 - 128) * 4096
                      + (b3 - 128) * 64 + (b4 - 128) in
            if is_cont b2 && is_cont b3 && is_cont b4
               && valid_code_point 65536 cp
            then option_map (app (utf16 cp)) (decode_items r4)
            else None
        | _ => None
        end
      else None
  end.

(** [decodeURIComponent(s)]; [None] is the [URIError] it throws. *)
Definition decodeURIComponent (s : jsstring) : option jsstring :=
  match unescape s with
  | Some l => decode_items l
  | None => None
  end.

End Uri.
Import Uri.

(* ================================================================== *)
(** ** Asynchronous code and its collaborators *)

Module Effects.

(** What can be thrown, or make a promise reject. *)
Inductive exn :=
| Error (msg : string)   (* [new Error(msg)], thrown by the worker *)
| SyntaxError            (* [JSON.parse] *)
| TypeError              (* a property read on [null], a call of a non-function *)
| URIError               (* [encodeURIComponent] *)
| FetchError             (* [fetch] rejects: the request did not complete *)
| BodyError              (* [response.text()] rejects *)
| TabsError.             (* [chrome.tabs.create] rejects *)

(** How [fetch(url)] ends: it rejects, or it gives a response with its
    [ok] flag and the outcome of [text()] ([None]: [text()] rejects). *)
Inductive fetch_result :=
| NetworkFailure
| Response (ok : bool) (text : option jsstring).

(** The body of an [async] function: it returns, throws, or calls a
    collaborator and goes on with the answer. *)
Inductive prog (A : Type) : Type :=
| Ret (a : A)
| Throw (e : exn)
| Fetch (url : jsstring) (k : fetch_result -> prog A)
| TabsCreate (url : jsval) (k : bool -> prog A)
| Notify (title message : jsstring) (k : prog A).

Arguments Ret {A} a.
Arguments Throw {A} e.
Arguments Fetch {A} url k.
Arguments TabsCreate {A} url k.
Arguments Notify {A} title message k.

Fixpoint bind {A B} (p : prog A) (f : A -> prog B) : prog B :=
  match p with
  | Ret a => f a
  | Throw e => Throw e
  | Fetch u k => Fetch u (fun r => bind (k r) f)
  | TabsCreate u k => TabsCreate u (fun b => bind (k b) f)
  | Notify t m k => Notify t m (bind k f)
  end.

(** [try { p } catch (e) { h e }]. *)
Fixpoint try_catch {A} (p : prog A) (h : exn -> prog A) : prog A :=
  match p with
  | Ret a => Ret a
  | Throw e => h e
  | Fetch u k => Fetch u (fun r => try_catch (k r) h)
  | TabsCreate u k => TabsCreate u (fun b => try_catch (k b) h)
  | Notify t m k => Notify t m (try_catch k h)
  end.

Declare Scope prog_scope.
Delimit Scope prog_scope with prog.
Notation "x <- p ;; q" := (bind p (fun x => q))
  (at level 61, p at next level, right associativity) : prog_scope.
Notation "p ;; q" := (bind p (fun _ => q))
  (at level 61, right associativity) : prog_scope.

(** [await fetch(url)]. *)
Definition fetch (url : jsstring) : prog (bool * option jsstring) :=
  Fetch url (fun r =>
    match r with
    | NetworkFailure => Throw FetchError
    | Response ok text => Ret (ok, text)
    end).

(** [await response.text()]. *)
Definition response_text (text : option jsstring) : prog jsstring :=
  match text with
  | Some t => Ret t
  | None => Throw BodyError
  end.

(** [await chrome.tabs.create({ url })]. *)
Definition tabs_create (url : jsval) : prog unit :=
  TabsCreate url (fun created => if created then Ret tt else Throw TabsError).

(** [chrome.notifications?.create({ ..., title, message })]. *)
Definition notify (title message : jsstring) : prog unit :=
  Notify title message (Ret tt).

(** A value of the error monad of synchronous code, or the exception. *)
Definition lift {A} (e : exn) (o : option A) : prog A :=
  match o with
  | Some a => Ret a
  | None => Throw e
  end.

(** The calls made to the collaborators, in the order they are made. *)
Inductive event :=
| EvFetch (url : jsstring)
| EvTab (url : jsval)
| EvNotify (title message : jsstring).

(** The collaborators: how a request is answered and whether a tab
    opens, each told the calls made so far. *)
Record world := World {
  on_fetch : list event -> jsstring -> fetch_result;
  on_tabs : list event -> jsval -> bool
}.

(** How the promise of an [async] function settles. *)
Inductive settled (A : Type) : Type :=
| Fulfilled (a : A)
| Rejected (e : exn).

Arguments Fulfilled {A} a.
Arguments Rejected {A} e.

(** The program in a world, after the calls [past]: all the calls made,
    and the way it ends. *)
Fixpoint run {A} (w : world) (past : list event) (p : prog A)
  : list event * settled A :=
  match p with
  | Ret a => (past, Fulfilled a)
  | Throw e => (past, Rejected e)
  | Fetch u k => run w (past ++ [EvFetch u]) (k (on_fetch w past u))
  | TabsCreate u k => run w (past ++ [EvTab u]) (k (on_tabs w past u))
  | Notify t m k => run w (past ++ [EvNotify t m]) k
  end.

End Effects.
Import Effects.

Local Open Scope prog_scope.

(** [`${a}${b}`] and [a + b] on strings. *)
Notation "a +++ b" := (@app code_unit a b)
  (at level 60, right associativity, only parsing).

(* ================================================================== *)
(** ** The worker with identifier and link extraction *)

Module Deep.

(** [patterns] of [extractPaperIdFromResponse], in their order.

    Pattern 0: the assignment of an object to [window.googleSearchResponse];
    the group runs lazily from the opening brace to the first closing brace
    that a semicolon follows, on one line. *)
Definition pattern0 : regex :=
  Regex (lit "window.googleSearchResponse"
           ++ [Star true is_space; Chr 61; Star true is_space])
        [Chr 123; Star false dot; Chr 125]
        [Chr 59].

(** Pattern 1: the key [r] in double quotes, a colon, and an array whose
    first element is an object; the group is that object, taken lazily. *)
Definition pattern1 : regex :=
  Regex (litq "'r':" ++ [Star true is_space; Chr 91])
        [Chr 123; Star false dot; Chr 125]
        [Chr 93].

(** Pattern 2: the attribute [data-clk]; the group is its value. *)
Definition pattern2 : regex :=
  Regex (litq "data-clk='") [Star true (not_chr dq)] [Chr dq].

(** Pattern 3: the attribute [data-href] with an info link; the group is
    the identifier, one or more code units other than a colon. *)
Definition pattern3 : regex :=
  Regex (litq "data-href='/scholar?q=info:")
        [Plus (not_chr 58)]
        (lit ":scholar.google.com").

Definition patterns : list regex := [pattern0; pattern1; pattern2; pattern3].

(** The expression of the scan for any cite link: the info link of
    pattern 3 without the attribute. *)
Definition cite_pattern : regex :=
  Regex (lit "/scholar?q=info:") [Plus (not_chr 58)] (lit ":scholar.google.com").

(** The expression of the anchor scan of [getBibTexFromPaperId]: an
    [href] attribute, whose value is the group, then anything up to the end
    of the tag, the label BibTeX and the closing tag of the anchor. *)
Definition anchor_pattern : regex :=
  Regex (litq "href='")
        [Star true (not_chr dq)]
        (Chr dq :: Star true (not_chr 62) :: lit ">BibTeX</a>").

(** The error monad of the synchronous code: [None] is a throw. *)
Definition obind {A B} (o : option A) (f : A -> option B) : option B :=
  match o with
  | Some a => f a
  | None => None
  end.

(** [searchData.r && searchData.r.length > 0 && searchData.r[0].l &&
    searchData.r[0].l.f && searchData.r[0].l.f.u], as a condition. *)
Definition has_result_url (searchData : jsval) : option bool :=
  obind (get_prop (js "r") searchData) (fun r =>
  if negb (truthy r) then Some false else
  obind (get_length r) (fun len =>
  obind (gt_zero len) (fun positive =>
  if negb positive then Some false else
  obind (get_index0 r) (fun r0 =>
  obind (get_prop (js "l") r0) (fun l =>
  if negb (truthy l) then Some false else
  obind (get_prop (js "f") l) (fun f =>
  if negb (truthy f) then Some false else
  obind (get_prop (js "u") f) (fun u =>
  Some (truthy u)))))))).

(** [searchData.r[0].l.f.u]. *)
Definition result_url (searchData : jsval) : option jsval :=
  obind (get_prop (js "r") searchData) (fun r =>
  obind (get_index0 r) (fun r0 =>
  obind (get_prop (js "l") r0) (fun l =>
  obind (get_prop (js "f") l) (fun f =>
  get_prop (js "u") f)))).

(** What one turn of the loop over [patterns] does. *)
Inductive turn :=
| Return (id : jsstring)
| Continue
| Thrown.

(** The turn of the pattern of index [i]. *)
Definition try_pattern (i : nat) (pattern : regex) (responseText : jsstring)
  : turn :=
  match regex_match pattern responseText with
  | Some m1 =>
      if Nat.eqb i 0 then
        match JSON_parse m1 with
        | None => Thrown
        | Some searchData =>
            match has_result_url (Some searchData) with
            | None => Thrown
            | Some false => Continue
            | Some true =>
                match result_url (Some searchData) with
                | Some (Some (JStr u)) => Return (replace_first (js "#f") [] u)
                | _ => Thrown
                end
            end
        end
      else if Nat.eqb i 3 then Return m1
      else Continue
  | None => Continue
  end.

Fixpoint try_patterns (i : nat) (ps : list regex) (responseText : jsstring)
  : turn :=
  match ps with
  | [] => Continue
  | pattern :: ps' =>
      match try_pattern i pattern responseText with
      | Continue => try_patterns (S i) ps' responseText
      | t => t
      end
  end.

(** [extractPaperIdFromResponse(responseText)]; [None] is [null]. *)
Definition extractPaperIdFromResponse (responseText : jsstring)
  : option jsstring :=
  match try_patterns 0 patterns responseText with
  | Return id => Some id
  | Continue => regex_match cite_pattern responseText
  | Thrown => None
  end.

Definition citeUrl (paperId : jsstring) : jsstring :=
  js "https://scholar.google.com/scholar?output=gsb-cite&hl=en&q=info:"
  +++ paperId +++ js ":scholar.google.com/".

(** [citeData && citeData.i && citeData.i[0] &&
    citeData.i[0].l === "BibTeX"]. *)
Definition first_is_bibtex (citeData : jsval) : option bool :=
  if negb (truthy citeData) then Some false else
  obind (get_prop (js "i") citeData) (fun i =>
  if negb (truthy i) then Some false else
  obind (get_index0 i) (fun i0 =>
  if negb (truthy i0) then Some false else
  obind (get_prop (js "l") i0) (fun l =>
  Some (match l with
        | Some (JStr s) => JsString.eqb s (js "BibTeX")
        | _ => false
        end)))).

(** [citeData.i[0].u]. *)
Definition first_url (citeData : jsval) : option jsval :=
  obind (get_prop (js "i") citeData) (fun i =>
  obind (get_index0 i) (fun i0 =>
  get_prop (js "u") i0)).

Definition success_title : jsstring := js "SelectCite Success!".
Definition success_message : jsstring :=
  js "BibTeX citation page opened! Copy the citation from the new tab.".
Definition cite_page_message : jsstring :=
  jsq "Citation page opened. Please click on 'BibTeX' link.".

(** The inner [try]/[catch] of [getBibTexFromPaperId]: [true] when it
    executed one of its [return] statements. *)
Definition open_bibtex_link (citeText : jsstring) : prog bool :=
  try_catch
    (citeData <- lift SyntaxError (JSON_parse citeText) ;;
     found <- lift TypeError (first_is_bibtex (Some citeData)) ;;
     if found : bool then
       bibTexUrl <- lift TypeError (first_url (Some citeData)) ;;
       tabs_create bibTexUrl ;;
       notify success_title success_message ;;
       Ret true
     else Ret false)
    (fun parseError =>
       match regex_match anchor_pattern citeText with
       | Some bibTexUrl =>
           tabs_create (Some (JStr bibTexUrl)) ;;
           notify success_title success_message ;;
           Ret true
       | None => Ret false
       end).

(** [getBibTexFromPaperId(paperId)]. *)
Definition getBibTexFromPaperId (paperId : jsstring) : prog unit :=
  try_catch
    (citeResponse <- fetch (citeUrl paperId) ;;
     (if fst citeResponse then Ret tt
      else Throw (Error "Citation request failed")) ;;
     citeText <- response_text (snd citeResponse) ;;
     returned <- open_bibtex_link citeText ;;
     if returned : bool then Ret tt
     else
       tabs_create (Some (JStr (citeUrl paperId))) ;;
       notify (js "SelectCite") cite_page_message)
    (fun error => Throw error).

Definition scholarUrl (encodedTerm : jsstring) : jsstring :=
  js "https://scholar.google.com/scholar?hl=en&q=" +++ encodedTerm.

(** [openScholarSearch(searchTerm)]. *)
Definition openScholarSearch (searchTerm : jsstring) : prog unit :=
  try_catch
    (encodedTerm <- lift URIError (encodeURIComponent searchTerm) ;;
     tabs_create (Some (JStr (scholarUrl encodedTerm))))
    (fun error => Throw error).

(** [showErrorNotification()]. *)
Definition showErrorNotification : prog unit :=
  notify (js "SelectCite Error")
         (js "Sorry, unable to search for citations. Please try again or search manually on Google Scholar.").

(** [keyword.trim().replace(/\s+/g, '+')]. *)
Definition cleanKeyword (keyword : jsstring) : jsstring :=
  replace_spaces (js "+") (trim keyword).

Definition searchUrl (encodedKeyword : jsstring) : jsstring :=
  js "https://scholar.google.com/scholar?oi=gsb95&output=gsb&hl=en&q="
  +++ encodedKeyword.

Definition manual_message (keyword : jsstring) : jsstring :=
  jsq "Found search results for: '" +++ keyword +++ [dq; 10]
  +++ jsq "Please click 'Cite' then 'BibTeX' manually.".

(** [searchForBibTex(keyword)]. *)
Definition searchForBibTex (keyword : jsstring) : prog unit :=
  match keyword with
  | [] => Ret tt
  | _ :: _ =>
      try_catch
        (encodedKeyword <- lift URIError (encodeURIComponent (cleanKeyword keyword)) ;;
         searchResponse <- fetch (searchUrl encodedKeyword) ;;
         (if fst searchResponse then Ret tt
          else Throw (Error "Search request failed")) ;;
         searchText <- response_text (snd searchResponse) ;;
         match extractPaperIdFromResponse searchText with
         | Some ((_ :: _) as paperId) => getBibTexFromPaperId paperId
         | _ =>
             openScholarSearch (cleanKeyword keyword) ;;
             notify (js "SelectCite") (manual_message keyword)
         end)
        (fun error =>
           openScholarSearch (replace_spaces (js "+") (trim keyword)) ;;
           showErrorNotification)
  end.

(** The argument of the listener of [chrome.contextMenus.onClicked];
    [selectionText] is [None] when the property is absent. *)
Record click_info := ClickInfo {
  menuItemId : jsstring;
  selectionText : option jsstring
}.

(** The query the listener hands to [searchForBibTex]; [None] when it
    does not call it. *)
Definition clicked_query (info : click_info) : option jsstring :=
  match selectionText info with
  | Some ((_ :: _) as text) =>
      if JsString.eqb (menuItemId info) (js "selectcite-search") then
        let selectedText := trim text in
        if (0 <? List.length selectedText)%nat then Some selectedText
        else None
      else None
  | _ => None
  end.

(** The listener.  It does not await the promise of [searchForBibTex]: a
    rejection does not reach it. *)
Definition onClicked (info : click_info) : prog unit :=
  match clicked_query info with
  | Some selectedText =>
      try_catch (searchForBibTex selectedText) (fun _ => Ret tt)
  | None => Ret tt
  end.

End Deep.

(* ================================================================== *)
(** ** The worker that only opens the search page *)

Module Simple.

Definition scholarUrl (encodedTerm : jsstring) : jsstring :=
  js "https://scholar.google.com/scholar?hl=en&q=" +++ encodedTerm.

(** [openScholarSearch(searchTerm)]. *)
Definition openScholarSearch (searchTerm : jsstring) : prog unit :=
  try_catch
    (encodedTerm <- lift URIError (encodeURIComponent searchTerm) ;;
     tabs_create (Some (JStr (scholarUrl encodedTerm))))
    (fun error => Throw error).

(** [showErrorNotification()]. *)
Definition showErrorNotification : prog unit :=
  notify (js "SelectCite Error")
         (js "Sorry, unable to search for citations. Please try again or search manually on Google Scholar.").

(** [keyword.trim().replace(/\s+/g, ' ')]. *)
Definition cleanKeyword (keyword : jsstring) : jsstring :=
  replace_spaces (js " ") (trim keyword).

(** [cleanKeyword.length > 50 ? cleanKeyword.substring(0, 50) + '...'
    : cleanKeyword]. *)
Definition shortened (cleanKeyword : jsstring) : jsstring :=
  if (50 <? List.length cleanKeyword)%nat
  then firstn 50 cleanKeyword +++ js "..."
  else cleanKeyword.

Definition searching_message (cleanKeyword : jsstring) : jsstring :=
  jsq "Searching for: '" +++ shortened cleanKeyword +++ [dq; 10]
  +++ jsq "Click 'Cite' then 'BibTeX' for the paper you need.".

(** [searchForBibTex(keyword)]. *)
Definition searchForBibTex (keyword : jsstring) : prog unit :=
  match keyword with
  | [] => Ret tt
  | _ :: _ =>
      try_catch
        (openScholarSearch (cleanKeyword keyword) ;;
         notify (js "SelectCite") (searching_message (cleanKeyword keyword)))
        (fun error => showErrorNotification)
  end.

End Simple.

(* ================================================================== *)
(** ** Notions of the specification *)

Module SpecWords.

(** The URLs handed to the tab opener in a trace. *)
Fixpoint opened_urls (tr : list event) : list jsval :=
  match tr with
  | [] => []
  | EvTab u :: tr' => u :: opened_urls tr'
  | _ :: tr' => opened_urls tr'
  end.

(** Follows the specification ("stripping a known trailing marker"): the
    marker is removed when the text ends with it. *)
Definition strip_trailing_marker (marker s : jsstring) : jsstring :=
  if is_prefix (rev marker) (rev s)
  then firstn (List.length s - List.length marker) s
  else s.

(** Follows the specification ("a list of citation-format entries",
    "the entry whose label exactly equals the target format name", "its
    URL field"): [citeData] holds a list [i] with an entry of label
    [label] whose URL field is [url]. *)
Definition has_entry (citeData : json) (label : jsstring) (url : jsval) : Prop :=
  exists entries entry,
    get_prop (js "i") (Some citeData) = Some (Some (JArr entries))
    /\ In entry entries
    /\ get_prop (js "l") (Some entry) = Some (Some (JStr label))
    /\ get_prop (js "u") (Some entry) = Some url.

(** A world in which every request is answered by [r], and every tab
    opens or none does. *)
Definition answering (r : fetch_result) (tabs : bool) : world :=
  World (fun _ _ => r) (fun _ _ => tabs).

(** A world in which the first request is answered by [search], every
    later one by [cite], and every tab opens or none does. *)
Definition scripted (search cite : fetch_result) (tabs : bool) : world :=
  World (fun past _ => match past with [] => search | _ :: _ => cite end)
        (fun _ _ => tabs).

(** The trace [tr] begins with the calls [pre]. *)
Definition starts_with (pre tr : list event) : Prop :=
  exists rest, tr = pre ++ rest.

(** What opening [url] and then showing a notification gives after the
    calls [past]: the tab opener is called; when the tab opens the
    notification follows, otherwise the rejection is thrown on. *)
Definition opening (w : world) (past : list event) (url : jsval)
           (title message : jsstring) : list event * settled unit :=
  if on_tabs w past url
  then (past ++ [EvTab url; EvNotify title message], Fulfilled tt)
  else (past ++ [EvTab url], Rejected TabsError).

End SpecWords.
Import SpecWords.

(* ================================================================== *)
(** ** Sample responses *)

Module Samples.

(** A search response whose embedded assignment is an object literal with
    an unquoted key, which is not JSON, followed by a cite link. *)
Definition broken_assignment : jsstring :=
  jsq "window.googleSearchResponse = {r:[]}; <a href='/scholar?q=info:ABC:scholar.google.com/'>Cite</a>".

(** The same with an assignment that is JSON and has no result. *)
Definition empty_assignment : jsstring :=
  jsq "window.googleSearchResponse = {'r':[]}; <a href='/scholar?q=info:ABC:scholar.google.com/'>Cite</a>".

(** A search response whose result URL holds the marker twice. *)
Definition marker_twice : jsstring :=
  jsq "window.googleSearchResponse = {'r':[{'l':{'f':{'u':'a#fb#f'}}}]};".

(** A search response without anything an expression matches. *)
Definition no_identifier : jsstring := js "<html><body>No results</body></html>".


(** A citation response with the BibTeX entry in first place. *)
Definition bibtex_first : jsstring :=
  jsq "{'i':[{'l':'BibTeX','u':'http://b'},{'l':'EndNote','u':'http://e'}]}".

(** A citation response that is JSON, has no entry, and in whose text the
    anchor expression matches. *)
Definition json_with_anchor : jsstring :=
  jsq "['<a href=','http://b','>BibTeX</a>']".

(** A citation response that is HTML with the anchor. *)
Definition html_with_anchor : jsstring :=
  jsq "<div><a href='http://b' class='gs_citi'>BibTeX</a></div>".


End Samples.

(* ================================================================== *)
(** ** The listeners of the extension life cycle *)

Module Lifecycle.

(** The argument of [chrome.contextMenus.create]. *)
Record menu_item := MenuItem {
  item_id : jsstring;
  item_title : jsstring;
  item_contexts : list jsstring;
  item_patterns : list jsstring
}.

(** The calls of the listener of [chrome.runtime.onInstalled]; none of
    them is awaited, and none gives back a value the listener reads. *)
Inductive setup_call :=
| MenuCreate (item : menu_item)
| WelcomeNotify (title message : jsstring).

(** The listener of [chrome.runtime.onInstalled], on [details.reason]. *)
Definition onInstalled (reason : jsstring) : list setup_call :=
  MenuCreate (MenuItem (js "selectcite-search")
                       (jsq "Search citation for '%s'")
                       [js "selection"]
                       [js "http://*/*"; js "https://*/*"])
  :: (if JsString.eqb reason (js "install")
      then [WelcomeNotify
              (js "Welcome to SelectCite!")
              (js "Select any text and right-click to search for academic citations. Happy researching!")]
      else []).

(** The listener of [chrome.action.onClicked]. *)
Definition onActionClicked : prog unit :=
  try_catch
    (tabs_create (Some (JStr (js "https://scholar.google.com/"))) ;;
     notify (js "SelectCite")
            (js "Google Scholar opened. You can search manually or select text on any page and right-click."))
    (fun error => Ret tt).

End Lifecycle.

(* ================================================================== *)
(** ** Counting in traces *)

Module TraceWords.

(** Whether the call [e], made after the calls [past], opened a tab. *)
Definition tab_opened (w : world) (past : list event) (e : event) : nat :=
  match e with
  | EvTab u => if on_tabs w past u then 1 else 0
  | _ => 0
  end.

(** The number of tabs that opened during the calls [tr], made after the
    calls [past]. *)
Fixpoint opened_after (w : world) (past tr : list event) : nat :=
  match tr with
  | [] => 0
  | e :: tr' => tab_opened w past e + opened_after w (past ++ [e]) tr'
  end.

(** The number of tabs that opened in a trace. *)
Definition opened (w : world) (tr : list event) : nat := opened_after w [] tr.

(** The number of notifications shown in a trace. *)
Fixpoint noted (tr : list event) : nat :=
  match tr with
  | [] => 0
  | EvNotify _ _ :: tr' => S (noted tr')
  | _ :: tr' => noted tr'
  end.

(** The requests made in a trace. *)
Fixpoint requests (tr : list event) : list jsstring :=
  match tr with
  | [] => []
  | EvFetch u :: tr' => u :: requests tr'
  | _ :: tr' => requests tr'
  end.

(** The run that gave [r] after the calls [past] either was fulfilled
    after one more tab opened and one more notification was shown, or was
    rejected with no tab opened and no notification shown. *)
Definition settles_once {A} (w : world) (past : list event)
           (r : list event * settled A) : Prop :=
  match snd r with
  | Fulfilled _ =>
      opened w (fst r) = S (opened w past)
      /\ noted (fst r) = S (noted past)
  | Rejected _ =>
      opened w (fst r) = opened w past /\ noted (fst r) = noted past
  end.

(** A response from which the body cannot be had: the request did not
    complete, the status is not a success, or the body cannot be read. *)
Definition failed (r : fetch_result) : Prop :=
  match r with
  | NetworkFailure => True
  | Response ok text => ok = false \/ text = None
  end.

(** The text holds no white space. *)
Definition spaceless (s : jsstring) : Prop :=
  Forall (fun c => is_space c = false) s.

(** The white space of the text is made of single spaces (code unit 32),
    none of them the first code unit when [in_run] holds. *)
Fixpoint single_spaced (in_run : bool) (s : jsstring) : bool :=
  match s with
  | [] => true
  | c :: s' =>
      if is_space c then negb in_run && (c =? 32) && single_spaced true s'
      else single_spaced false s'
  end.

(** The title and the text of the notification of [showErrorNotification]. *)
Definition error_title : jsstring := js "SelectCite Error".
Definition error_message : jsstring :=
  js "Sorry, unable to search for citations. Please try again or search manually on Google Scholar.".

(** A code unit that [encodeURIComponent] can put out: one it leaves as
    it is, or the percent sign of an escape sequence. *)
Definition url_safe (c : code_unit) : bool := uri_unescaped c || (c =? 37).

(** The text is well-formed UTF-16: every surrogate is part of a pair
    (what [String.prototype.isWellFormed] tests). *)
Fixpoint well_formed (s : jsstring) : bool :=
  match s with
  | [] => true
  | c :: t =>
      if is_lead c then
        match t with
        | d :: t' => is_trail d && well_formed t'
        | [] => false
        end
      else negb (is_trail c) && well_formed t
  end.

(** The code unit is not a surrogate. *)
Definition plain (c : code_unit) : bool := negb (is_lead c) && negb (is_trail c).

End TraceWords.
Import TraceWords.

(* ================================================================== *)
(** ** Properties *)

Lemma eqb_eq a b : JsString.eqb a b = true <-> a = b.
Proof.
  revert b; induction a as [|x a IH]; intros [|y b]; simpl; split;
    try congruence; try reflexivity.
  - intros H. apply andb_true_iff in H as [H1 H2].
    apply N.eqb_eq in H1. apply IH in H2. congruence.
  - intros H. injection H as -> ->. rewrite N.eqb_refl. simpl. now apply IH.
Qed.

Lemma eqb_refl a : JsString.eqb a a = true.
Proof. now apply eqb_eq. Qed.

(** *** The context-menu listener *)

Lemma trim_start_spaces s : forallb is_space s = true -> trim_start s = [].
Proof.
  induction s as [|c s IH]; simpl; [reflexivity|].
  intros H. apply andb_true_iff in H as [Hc Hs]. rewrite Hc. auto.
Qed.

(** A text of white space only is empty after trimming. *)
Lemma trim_spaces s : forallb is_space s = true -> trim s = [].
Proof.
  intros H. unfold trim. rewrite (trim_start_spaces s H). reflexivity.
Qed.

(** C8. A click whose selection text is absent, empty, or empty after
    trimming never reaches the pipeline: the listener does not call
    [searchForBibTex], and in every world it makes no request, opens no tab
    and shows no notification. *)
Theorem empty_selection_is_ignored (info : Deep.click_info) :
  (forall text, Deep.selectionText info = Some text -> trim text = []) ->
  Deep.clicked_query info = None
  /\ Deep.onClicked info = Ret tt
  /\ forall w, run w [] (Deep.onClicked info) = ([], Fulfilled tt).
Proof.
  intros H.
  assert (Hq : Deep.clicked_query info = None).
  { unfold Deep.clicked_query.
    destruct (Deep.selectionText info) as [[|c text]|] eqn:E; try reflexivity.
    rewrite (H _ eq_refl). simpl.
    now destruct (JsString.eqb _ _). }
  split; [exact Hq|].
  unfold Deep.onClicked. rewrite Hq. split; [reflexivity|].
  intros w. reflexivity.
Qed.

Lemma empty_selection_is_ignored_witness :
  Deep.clicked_query
    (Deep.ClickInfo (js "selectcite-search") (Some (js "   "))) = None
  /\ Deep.onClicked
       (Deep.ClickInfo (js "selectcite-search") (Some (js "   "))) = Ret tt
  /\ forall w,
       run w [] (Deep.onClicked
                   (Deep.ClickInfo (js "selectcite-search") (Some (js "   "))))
       = ([], Fulfilled tt).
Proof.
  apply (empty_selection_is_ignored
           (Deep.ClickInfo (js "selectcite-search") (Some (js "   ")))).
  intros text H. injection H as <-. reflexivity.
Defined.

(** *** Identifier extraction *)



(** C5, at a body the worker can receive.  Pattern 0 matches, its text is
    not JSON, and the body holds a cite link that the final scan finds:
    extraction gives [null], the [SyntaxError] of [JSON.parse] having left
    the loop through the [catch] of the function.  When instead the parsed
    object merely lacks the path, the loop goes on and the link is found. *)
Theorem parse_failure_skips_final_scan :
  regex_match Deep.pattern0 Samples.broken_assignment = Some (js "{r:[]}")
  /\ JSON_parse (js "{r:[]}") = None
  /\ regex_match Deep.cite_pattern Samples.broken_assignment = Some (js "ABC")
  /\ Deep.extractPaperIdFromResponse Samples.broken_assignment = None
  /\ Deep.extractPaperIdFromResponse Samples.empty_assignment = Some (js "ABC").
Proof. vm_compute. repeat split. Qed.

(** *** Running composed programs *)

Section Run.
Variable w : world.

Lemma run_bind {A B} (p : prog A) (f : A -> prog B) past :
  run w past (bind p f)
  = match run w past p with
    | (tr, Fulfilled a) => run w tr (f a)
    | (tr, Rejected e) => (tr, Rejected e)
    end.
Proof.
  revert past.
  induction p as [a|e|u k IH|u k IH|t m k IH]; intros past;
    cbn [bind run]; auto.
Qed.

Lemma run_try_catch {A} (p : prog A) (h : exn -> prog A) past :
  run w past (try_catch p h)
  = match run w past p with
    | (tr, Fulfilled a) => (tr, Fulfilled a)
    | (tr, Rejected e) => run w tr (h e)
    end.
Proof.
  revert past.
  induction p as [a|e|u k IH|u k IH|t m k IH]; intros past;
    cbn [try_catch run]; auto.
Qed.

(** [catch (error) { throw error }] changes nothing. *)
Lemma run_rethrow {A} (p : prog A) past :
  run w past (try_catch p (fun error => Throw error)) = run w past p.
Proof.
  rewrite run_try_catch.
  destruct (run w past p) as [tr [a|e]]; reflexivity.
Qed.

Lemma run_fetch past url :
  run w past (fetch url)
  = (past ++ [EvFetch url],
     match on_fetch w past url with
     | NetworkFailure => Rejected FetchError
     | Response ok text => Fulfilled (ok, text)
     end).
Proof.
  unfold fetch. cbn [run]. destruct (on_fetch w past url); reflexivity.
Qed.

Lemma run_tabs_create past url :
  run w past (tabs_create url)
  = (past ++ [EvTab url],
     if on_tabs w past url then Fulfilled tt else Rejected TabsError).
Proof.
  unfold tabs_create. cbn [run]. destruct (on_tabs w past url); reflexivity.
Qed.

Lemma run_notify past title message :
  run w past (notify title message)
  = (past ++ [EvNotify title message], Fulfilled tt).
Proof. reflexivity. Qed.

Lemma run_lift {A} past e (o : option A) :
  run w past (lift e o)
  = (past, match o with Some a => Fulfilled a | None => Rejected e end).
Proof. destruct o; reflexivity. Qed.
End Run.

(** Rewriting a run into the runs of its parts. *)
Ltac run_step :=
  repeat first
    [ rewrite run_rethrow
    | rewrite run_bind
    | rewrite run_try_catch
    | rewrite run_fetch
    | rewrite run_tabs_create
    | rewrite run_notify
    | rewrite run_lift ];
  cbn [fst snd app].

(** *** The citation-export response *)

Section CiteResponse.
Variable w : world.
Variable paperId : jsstring.
Variable citeText : jsstring.
Hypothesis answered :
  on_fetch w [] (Deep.citeUrl paperId) = Response true (Some citeText).

Let cite : jsval := Some (JStr (Deep.citeUrl paperId)).

(** After the response, [getBibTexFromPaperId] is its inner block, then
    the opening of the citation page when the block did not return. *)
Lemma run_getBibTex :
  run w [] (Deep.getBibTexFromPaperId paperId)
  = run w [EvFetch (Deep.citeUrl paperId)]
        (returned <- Deep.open_bibtex_link citeText ;;
         if returned : bool then Ret tt
         else tabs_create cite ;;
              notify (js "SelectCite") Deep.cite_page_message).
Proof.
  unfold Deep.getBibTexFromPaperId.
  rewrite run_rethrow, run_bind, run_fetch, answered.
  cbn [app fst snd bind run response_text]. reflexivity.
Qed.
End CiteResponse.

Section CiteOutcome.
Variable w : world.
Variable paperId : jsstring.
Variable citeText : jsstring.
Hypothesis answered :
  on_fetch w [] (Deep.citeUrl paperId) = Response true (Some citeText).

Let cite : jsval := Some (JStr (Deep.citeUrl paperId)).
Let past : list event := [EvFetch (Deep.citeUrl paperId)].

Lemma run_open_and_notify tr url title message (b : bool) :
  run w tr (tabs_create url ;; notify title message ;; Ret b)
  = (fst (opening w tr url title message),
     match snd (opening w tr url title message) with
     | Fulfilled _ => Fulfilled b
     | Rejected e => Rejected e
     end).
Proof.
  unfold opening. run_step.
  destruct (on_tabs w tr url); cbn; run_step; cbn;
    rewrite <- ?app_assoc; reflexivity.
Qed.

Lemma run_cite_page tr :
  run w tr (tabs_create cite ;; notify (js "SelectCite") Deep.cite_page_message)
  = opening w tr cite (js "SelectCite") Deep.cite_page_message.
Proof.
  unfold opening. run_step.
  destruct (on_tabs w tr cite); cbn; run_step;
    rewrite <- ?app_assoc; reflexivity.
Qed.

(** The body is not JSON: the anchor scan decides. *)
Lemma run_not_json :
  JSON_parse citeText = None ->
  run w [] (Deep.getBibTexFromPaperId paperId)
  = match regex_match Deep.anchor_pattern citeText with
    | Some href =>
        opening w past (Some (JStr href))
                Deep.success_title Deep.success_message
    | None => opening w past cite (js "SelectCite") Deep.cite_page_message
    end.
Proof.
  intros Hparse. rewrite (run_getBibTex w paperId answered).
  rewrite run_bind. unfold Deep.open_bibtex_link.
  rewrite run_try_catch, run_bind, run_lift, Hparse.
  destruct (regex_match Deep.anchor_pattern citeText) as [href|].
  - rewrite run_open_and_notify. fold past. unfold opening.
    destruct (on_tabs w past (Some (JStr href))); reflexivity.
  - cbn [run]. apply run_cite_page.
Qed.

(** The body is JSON and the condition on its first entry does not
    hold: no scan, the citation page is opened. *)
Lemma run_no_entry citeData :
  JSON_parse citeText = Some citeData ->
  Deep.first_is_bibtex (Some citeData) = Some false ->
  run w [] (Deep.getBibTexFromPaperId paperId)
  = opening w past cite (js "SelectCite") Deep.cite_page_message.
Proof.
  intros Hparse Hfirst. rewrite (run_getBibTex w paperId answered).
  rewrite run_bind. unfold Deep.open_bibtex_link.
  rewrite run_try_catch, run_bind, run_lift, Hparse.
  rewrite run_bind, run_lift, Hfirst. cbn [run]. apply run_cite_page.
Qed.
End CiteOutcome.






(** C3, as the code has it.  The anchor scan is made when the body is not
    JSON, and it decides between the link of the anchor and the citation
    page.  When the body is JSON and the condition on its first entry does
    not hold, no scan is made: the citation page is opened whatever the text
    holds. *)
Theorem anchor_scan_after_parse_failure
        (w : world) (paperId citeText : jsstring) :
  on_fetch w [] (Deep.citeUrl paperId) = Response true (Some citeText) ->
  (JSON_parse citeText = None ->
   run w [] (Deep.getBibTexFromPaperId paperId)
   = match regex_match Deep.anchor_pattern citeText with
     | Some href =>
         opening w [EvFetch (Deep.citeUrl paperId)] (Some (JStr href))
                 Deep.success_title Deep.success_message
     | None =>
         opening w [EvFetch (Deep.citeUrl paperId)]
                 (Some (JStr (Deep.citeUrl paperId)))
                 (js "SelectCite") Deep.cite_page_message
     end)
  /\ (forall citeData,
         JSON_parse citeText = Some citeData ->
         Deep.first_is_bibtex (Some citeData) = Some false ->
         run w [] (Deep.getBibTexFromPaperId paperId)
         = opening w [EvFetch (Deep.citeUrl paperId)]
                   (Some (JStr (Deep.citeUrl paperId)))
                   (js "SelectCite") Deep.cite_page_message).
Proof.
  intros Hfetch. split.
  - apply (run_not_json w paperId Hfetch).
  - intros citeData. apply (run_no_entry w paperId Hfetch).
Qed.

Lemma anchor_scan_after_parse_failure_witness :
  run (answering (Response true (Some Samples.html_with_anchor)) true)
      [] (Deep.getBibTexFromPaperId (js "ABC"))
  = ([EvFetch (Deep.citeUrl (js "ABC"));
      EvTab (Some (JStr (js "http://b")));
      EvNotify Deep.success_title Deep.success_message],
     Fulfilled tt)
  /\ run (answering (Response true (Some Samples.json_with_anchor)) true)
         [] (Deep.getBibTexFromPaperId (js "ABC"))
     = ([EvFetch (Deep.citeUrl (js "ABC"));
         EvTab (Some (JStr (Deep.citeUrl (js "ABC"))));
         EvNotify (js "SelectCite") Deep.cite_page_message],
        Fulfilled tt).
Proof.
  split.
  - refine (proj1 (anchor_scan_after_parse_failure
                     (answering (Response true (Some Samples.html_with_anchor))
                                true)
                     (js "ABC") (citeText := Samples.html_with_anchor) _) _).
    + reflexivity.
    + vm_compute. reflexivity.
  - eapply (proj2 (anchor_scan_after_parse_failure
                     (answering (Response true (Some Samples.json_with_anchor))
                                true)
                     (js "ABC") (citeText := Samples.json_with_anchor)
                     eq_refl)).
    + vm_compute. reflexivity.
    + vm_compute. reflexivity.
Defined.

(** C3 as stated fails in its case (b).  The body [json_with_anchor] is
    JSON, has no entry labelled BibTeX, and the anchor expression matches in
    its text; the worker opens the citation page and never the link the scan
    would have captured. *)
Lemma json_body_is_not_scanned :
  (exists citeData,
      JSON_parse Samples.json_with_anchor = Some citeData
      /\ Deep.first_is_bibtex (Some citeData) = Some false
      /\ forall url, ~ has_entry citeData (js "BibTeX") url)
  /\ regex_match Deep.anchor_pattern Samples.json_with_anchor = Some (js ",")
  /\ opened_urls
       (fst (run (answering (Response true (Some Samples.json_with_anchor)) true)
                 [] (Deep.getBibTexFromPaperId (js "ABC"))))
     = [Some (JStr (Deep.citeUrl (js "ABC")))]
  /\ ~ In (Some (JStr (js ",")))
          (opened_urls
             (fst (run (answering (Response true (Some Samples.json_with_anchor)) true)
                       [] (Deep.getBibTexFromPaperId (js "ABC"))))).
Proof.
  split; [|split; [|split]]; try (vm_compute; reflexivity).
  - eexists. split; [vm_compute; reflexivity|].
    split; [vm_compute; reflexivity|].
    intros url (entries & entry & Hi & _). vm_compute in Hi. discriminate Hi.
  - vm_compute. intros [H|[]]. discriminate H.
Qed.

(** A run only adds calls to those made before it. *)
Lemma run_extends {A} (w : world) (p : prog A) past :
  exists rest, fst (run w past p) = past ++ rest.
Proof.
  revert past.
  induction p as [a|e|u k IH|u k IH|t m k IH]; intros past; cbn [run].
  - exists []. now rewrite app_nil_r.
  - exists []. now rewrite app_nil_r.
  - destruct (IH (on_fetch w past u) (past ++ [EvFetch u])) as [rest ->].
    rewrite <- app_assoc. eauto.
  - destruct (IH (on_tabs w past u) (past ++ [EvTab u])) as [rest ->].
    rewrite <- app_assoc. eauto.
  - destruct (IH (past ++ [EvNotify t m])) as [rest ->].
    rewrite <- app_assoc. eauto.
Qed.

Lemma first_entry_condition citeData entry others url :
  get_prop (js "i") (Some citeData) = Some (Some (JArr (entry :: others))) ->
  get_prop (js "l") (Some entry) = Some (Some (JStr (js "BibTeX"))) ->
  get_prop (js "u") (Some entry) = Some url ->
  Deep.first_is_bibtex (Some citeData) = Some true
  /\ Deep.first_url (Some citeData) = Some url.
Proof.
  intros Hi Hl Hu.
  unfold Deep.first_is_bibtex, Deep.first_url. rewrite Hi.
  assert (Tc : truthy (Some citeData) = true)
    by (destruct citeData; simpl in Hi; try discriminate; reflexivity).
  assert (Te : truthy (Some entry) = true)
    by (destruct entry; simpl in Hl; try discriminate; reflexivity).
  rewrite Tc. cbn [negb Deep.obind get_index0 nth_error].
  rewrite Te, Hl, Hu. cbn [negb Deep.obind]. rewrite eqb_refl. auto.
Qed.




(** *** Traces of the pipeline *)

Lemma starts_with_app pre tr more :
  starts_with pre tr -> starts_with pre (tr ++ more).
Proof. intros [rest ->]. exists (rest ++ more). now rewrite app_assoc. Qed.

Lemma run_starts_with {A} (w : world) (p : prog A) pre past :
  starts_with pre past -> starts_with pre (fst (run w past p)).
Proof.
  intros H. destruct (run_extends w p past) as [rest ->].
  now apply starts_with_app.
Qed.

Lemma bind_starts_with {A B} (w : world) (p : prog A) (f : A -> prog B)
      pre past :
  starts_with pre (fst (run w past p)) ->
  starts_with pre (fst (run w past (bind p f))).
Proof.
  rewrite run_bind. destruct (run w past p) as [tr [a|e]]; cbn [fst]; auto.
  apply run_starts_with.
Qed.

Lemma try_catch_starts_with {A} (w : world) (p : prog A) h pre past :
  starts_with pre (fst (run w past p)) ->
  starts_with pre (fst (run w past (try_catch p h))).
Proof.
  rewrite run_try_catch. destruct (run w past p) as [tr [a|e]]; cbn [fst]; auto.
  apply run_starts_with.
Qed.

Section SearchResponse.
Variable w : world.
Variables keyword encoded responseText : jsstring.
Hypothesis nonempty : keyword <> [].
Hypothesis encodes :
  encodeURIComponent (Deep.cleanKeyword keyword) = Some encoded.
Hypothesis answered :
  on_fetch w [] (Deep.searchUrl encoded) = Response true (Some responseText).

Let past : list event := [EvFetch (Deep.searchUrl encoded)].

(** After the search response, the [try] block of [searchForBibTex]
    goes on with what extraction gives. *)
Lemma run_searchForBibTex :
  run w [] (Deep.searchForBibTex keyword)
  = match
      run w past
          match Deep.extractPaperIdFromResponse responseText with
          | Some ((_ :: _) as paperId) => Deep.getBibTexFromPaperId paperId
          | _ =>
              Deep.openScholarSearch (Deep.cleanKeyword keyword) ;;
              notify (js "SelectCite") (Deep.manual_message keyword)
          end
    with
    | (tr, Fulfilled a) => (tr, Fulfilled a)
    | (tr, Rejected e) =>
        run w tr (Deep.openScholarSearch (Deep.cleanKeyword keyword) ;;
                  Deep.showErrorNotification)
    end.
Proof.
  unfold Deep.searchForBibTex.
  destruct keyword as [|c k]; [now destruct nonempty|].
  rewrite run_try_catch, run_bind, run_lift, encodes.
  rewrite run_bind, run_fetch, answered.
  cbn [app fst snd bind run response_text]. reflexivity.
Qed.

Lemma run_openScholarSearch tr :
  run w tr (Deep.openScholarSearch (Deep.cleanKeyword keyword))
  = (tr ++ [EvTab (Some (JStr (Deep.scholarUrl encoded)))],
     if on_tabs w tr (Some (JStr (Deep.scholarUrl encoded)))
     then Fulfilled tt else Rejected TabsError).
Proof.
  unfold Deep.openScholarSearch.
  rewrite run_rethrow, run_bind, run_lift, encodes, run_tabs_create.
  reflexivity.
Qed.
End SearchResponse.

(** C4, as the code has it.  When the search response yields no
    identifier, the first tab the worker asks for is the search page whose
    query parameter is the percent-encoded keyword, trimmed and with every
    run of white space replaced by [+]; the tab open, the run ends with the
    notification for a manual search.  For "Attention Is All You Need" that
    URL ends in [q=Attention%2BIs%2BAll%2BYou%2BNeed]. *)
Theorem no_identifier_opens_search_page
        (w : world) (keyword encoded responseText : jsstring) :
  keyword <> [] ->
  encodeURIComponent (Deep.cleanKeyword keyword) = Some encoded ->
  on_fetch w [] (Deep.searchUrl encoded) = Response true (Some responseText) ->
  Deep.extractPaperIdFromResponse responseText = None ->
  starts_with
    [EvFetch (Deep.searchUrl encoded);
     EvTab (Some (JStr (js "https://scholar.google.com/scholar?hl=en&q="
                        ++ encoded)))]
    (fst (run w [] (Deep.searchForBibTex keyword)))
  /\ (on_tabs w [EvFetch (Deep.searchUrl encoded)]
              (Some (JStr (Deep.scholarUrl encoded))) = true ->
      run w [] (Deep.searchForBibTex keyword)
      = ([EvFetch (Deep.searchUrl encoded);
          EvTab (Some (JStr (Deep.scholarUrl encoded)));
          EvNotify (js "SelectCite") (Deep.manual_message keyword)],
         Fulfilled tt))
  /\ (keyword = js "Attention Is All You Need" ->
      encoded = js "Attention%2BIs%2BAll%2BYou%2BNeed"
      /\ Deep.scholarUrl encoded
         = js "https://scholar.google.com/scholar?hl=en&q=Attention%2BIs%2BAll%2BYou%2BNeed").
Proof.
  intros Hne Henc Hfetch Hnone.
  rewrite (run_searchForBibTex w Hne Henc Hfetch), Hnone.
  rewrite run_bind, (run_openScholarSearch w keyword Henc).
  change (js "https://scholar.google.com/scholar?hl=en&q=" ++ encoded)
    with (Deep.scholarUrl encoded).
  set (past := [EvFetch (Deep.searchUrl encoded)]).
  set (page := Some (JStr (Deep.scholarUrl encoded))).
  split; [|split].
  - destruct (on_tabs w past page).
    + rewrite run_notify. cbn [fst]. exists [EvNotify (js "SelectCite") (Deep.manual_message keyword)].
      unfold past. reflexivity.
    + match goal with
      | |- context [run w ?tr ?p] => apply (run_starts_with w p (past := tr))
      end.
      exists []. reflexivity.
  - intros ->. rewrite run_notify. reflexivity.
  - intros ->. vm_compute in Henc. injection Henc as <-. split; reflexivity.
Qed.

Lemma no_identifier_opens_search_page_witness :
  run (scripted (Response true (Some Samples.no_identifier)) NetworkFailure true)
      [] (Deep.searchForBibTex (js "Attention Is All You Need"))
  = ([EvFetch (js "https://scholar.google.com/scholar?oi=gsb95&output=gsb&hl=en&q=Attention%2BIs%2BAll%2BYou%2BNeed");
      EvTab (Some (JStr (js "https://scholar.google.com/scholar?hl=en&q=Attention%2BIs%2BAll%2BYou%2BNeed")));
      EvNotify (js "SelectCite")
               (Deep.manual_message (js "Attention Is All You Need"))],
     Fulfilled tt).
Proof.
  edestruct (no_identifier_opens_search_page
               (scripted (Response true (Some Samples.no_identifier))
                         NetworkFailure true)
               (keyword := js "Attention Is All You Need")
               (encoded := js "Attention%2BIs%2BAll%2BYou%2BNeed")
               (responseText := Samples.no_identifier)) as (_ & H & _);
    [ discriminate
    | vm_compute; reflexivity
    | reflexivity
    | vm_compute; reflexivity
    | apply H; reflexivity ].
Defined.

(** C4 as stated fails on its example.  For "Attention Is All You Need"
    and a search response without an identifier, the URL opened has the
    words joined by [%2B]; the URL with [%20] is not opened. *)
Lemma fallback_url_is_not_space_joined :
  Deep.extractPaperIdFromResponse Samples.no_identifier = None
  /\ opened_urls
       (fst (run (scripted (Response true (Some Samples.no_identifier))
                           NetworkFailure true)
                 [] (Deep.searchForBibTex (js "Attention Is All You Need"))))
     = [Some (JStr (js "https://scholar.google.com/scholar?hl=en&q=Attention%2BIs%2BAll%2BYou%2BNeed"))]
  /\ ~ In (Some (JStr (js "https://scholar.google.com/scholar?hl=en&q=Attention%20Is%20All%20You%20Need")))
          (opened_urls
             (fst (run (scripted (Response true (Some Samples.no_identifier))
                                 NetworkFailure true)
                       [] (Deep.searchForBibTex (js "Attention Is All You Need"))))).
Proof.
  split; [|split].
  - vm_compute. reflexivity.
  - vm_compute. reflexivity.
  - vm_compute. intros [H|[]]. discriminate H.
Qed.

(** The variant that only opens the search page: one tab is asked for,
    and a failure to open it ends in the error notification, not in a
    rejection. *)
Lemma simple_variant_run (w : world) (keyword encoded : jsstring) :
  keyword <> [] ->
  encodeURIComponent (Simple.cleanKeyword keyword) = Some encoded ->
  run w [] (Simple.searchForBibTex keyword)
  = if on_tabs w [] (Some (JStr (Simple.scholarUrl encoded)))
    then ([EvTab (Some (JStr (Simple.scholarUrl encoded)));
           EvNotify (js "SelectCite")
                    (Simple.searching_message (Simple.cleanKeyword keyword))],
          Fulfilled tt)
    else ([EvTab (Some (JStr (Simple.scholarUrl encoded)));
           EvNotify (js "SelectCite Error")
                    (js "Sorry, unable to search for citations. Please try again or search manually on Google Scholar.")],
          Fulfilled tt).
Proof.
  intros Hne Henc. unfold Simple.searchForBibTex.
  destruct keyword as [|c k]; [now destruct Hne|].
  rewrite run_try_catch, run_bind. unfold Simple.openScholarSearch.
  rewrite run_rethrow, run_bind, run_lift, Henc, run_tabs_create.
  destruct (on_tabs w [] (Some (JStr (Simple.scholarUrl encoded))));
    reflexivity.
Qed.

(** It joins the words with a space, and its URL has [%20]. *)
Lemma simple_variant_is_space_joined (w : world) :
  starts_with
    [EvTab (Some (JStr (js "https://scholar.google.com/scholar?hl=en&q=Attention%20Is%20All%20You%20Need")))]
    (fst (run w [] (Simple.searchForBibTex (js "Attention Is All You Need")))).
Proof.
  rewrite (simple_variant_run w
             (keyword := js "Attention Is All You Need")
             (encoded := js "Attention%20Is%20All%20You%20Need"));
    [|discriminate|vm_compute; reflexivity].
  destruct (on_tabs w [] _); eexists; reflexivity.
Qed.

(** *** The embedded JSON object *)

Lemma length_is_positive n :
  gt_zero (Some (number_of_nat (S n))) = Some true.
Proof.
  unfold gt_zero, number_of_nat.
  cbn [to_primitive_throws number_class class_of_decimal truthy d_mant d_exp
       d_neg].
  destruct (N.of_nat (S n)) eqn:E; [discriminate E|]. reflexivity.
Qed.

Lemma get_prop_truthy k v x : get_prop k (Some v) = Some (Some x) -> truthy (Some v) = true.
Proof. destruct v; simpl; try discriminate; reflexivity. Qed.

Lemma result_path searchData result others link field u :
  get_prop (js "r") (Some searchData) = Some (Some (JArr (result :: others))) ->
  get_prop (js "l") (Some result) = Some (Some link) ->
  get_prop (js "f") (Some link) = Some (Some field) ->
  get_prop (js "u") (Some field) = Some (Some (JStr u)) ->
  u <> [] ->
  Deep.has_result_url (Some searchData) = Some true
  /\ Deep.result_url (Some searchData) = Some (Some (JStr u)).
Proof.
  intros Hr Hl Hf Hu Hne.
  unfold Deep.has_result_url, Deep.result_url. rewrite Hr.
  cbn [Deep.obind].
  change (truthy (Some (JArr (result :: others)))) with true.
  cbn [Deep.obind get_length get_index0 nth_error List.length negb].
  rewrite length_is_positive. cbn [Deep.obind negb].
  rewrite Hl. cbn [Deep.obind].
  rewrite (get_prop_truthy _ _ Hf), Hf. cbn [Deep.obind negb].
  rewrite (get_prop_truthy _ _ Hu), Hu. cbn [Deep.obind truthy negb].
  destruct u; [now destruct Hne|]. auto.
Qed.

(** C6, as the code has it.  When pattern 0 matches and the text of its
    group is JSON with a string at [r[0].l.f.u], extraction gives that
    string with the first occurrence of [#f] removed; and when this
    identifier is not empty, the request that follows the search request is
    the citation-export request built from it. *)
Theorem embedded_object_identifier
        (responseText captured : jsstring)
        (searchData result link field : json) (others : list json)
        (u : jsstring) :
  regex_match Deep.pattern0 responseText = Some captured ->
  JSON_parse captured = Some searchData ->
  get_prop (js "r") (Some searchData) = Some (Some (JArr (result :: others))) ->
  get_prop (js "l") (Some result) = Some (Some link) ->
  get_prop (js "f") (Some link) = Some (Some field) ->
  get_prop (js "u") (Some field) = Some (Some (JStr u)) ->
  u <> [] ->
  Deep.extractPaperIdFromResponse responseText
  = Some (replace_first (js "#f") [] u)
  /\ forall (w : world) (keyword encoded : jsstring),
      keyword <> [] ->
      encodeURIComponent (Deep.cleanKeyword keyword) = Some encoded ->
      on_fetch w [] (Deep.searchUrl encoded)
      = Response true (Some responseText) ->
      replace_first (js "#f") [] u <> [] ->
      starts_with
        [EvFetch (Deep.searchUrl encoded);
         EvFetch (js "https://scholar.google.com/scholar?output=gsb-cite&hl=en&q=info:"
                  ++ replace_first (js "#f") [] u
                  ++ js ":scholar.google.com/")]
        (fst (run w [] (Deep.searchForBibTex keyword))).
Proof.
  intros Hmatch Hparse Hr Hl Hf Hu Hne.
  destruct (result_path _ Hr Hl Hf Hu Hne) as [Hhas Hurl].
  assert (Hextract : Deep.extractPaperIdFromResponse responseText
                     = Some (replace_first (js "#f") [] u)).
  { unfold Deep.extractPaperIdFromResponse, Deep.patterns.
    cbn [Deep.try_patterns]. unfold Deep.try_pattern at 1.
    rewrite Hmatch. cbn [Nat.eqb]. rewrite Hparse, Hhas, Hurl. reflexivity. }
  split; [exact Hextract|].
  intros w keyword encoded Hk Henc Hfetch Hid.
  rewrite (run_searchForBibTex w Hk Henc Hfetch), Hextract.
  set (paperId := replace_first (js "#f") [] u) in *.
  change (js "https://scholar.google.com/scholar?output=gsb-cite&hl=en&q=info:"
          ++ paperId ++ js ":scholar.google.com/")
    with (Deep.citeUrl paperId).
  assert (Hcite :
            starts_with
              [EvFetch (Deep.searchUrl encoded); EvFetch (Deep.citeUrl paperId)]
              (fst (run w [EvFetch (Deep.searchUrl encoded)]
                        (Deep.getBibTexFromPaperId paperId)))).
  { unfold Deep.getBibTexFromPaperId.
    apply try_catch_starts_with, bind_starts_with.
    rewrite run_fetch. exists []. reflexivity. }
  destruct paperId as [|c id]; [now destruct Hid|].
  destruct (run w [EvFetch (Deep.searchUrl encoded)]
                (Deep.getBibTexFromPaperId (c :: id))) as [tr [a|e]];
    cbn [fst] in *; [exact Hcite|].
  now apply run_starts_with.
Qed.

Lemma embedded_object_identifier_witness :
  Deep.extractPaperIdFromResponse Samples.marker_twice = Some (js "ab#f")
  /\ starts_with
       [EvFetch (js "https://scholar.google.com/scholar?oi=gsb95&output=gsb&hl=en&q=a%2Bpaper");
        EvFetch (js "https://scholar.google.com/scholar?output=gsb-cite&hl=en&q=info:ab#f:scholar.google.com/")]
       (fst (run (scripted (Response true (Some Samples.marker_twice))
                           NetworkFailure true)
                 [] (Deep.searchForBibTex (js "a paper")))).
Proof.
  edestruct (embedded_object_identifier Samples.marker_twice) as [H1 H2];
    [ vm_compute; reflexivity
    | vm_compute; reflexivity
    | vm_compute; reflexivity
    | vm_compute; reflexivity
    | vm_compute; reflexivity
    | vm_compute; reflexivity
    | discriminate
    | ].
  split; [exact H1|].
  apply (H2 (scripted (Response true (Some Samples.marker_twice))
                      NetworkFailure true)
            (js "a paper") (js "a%2Bpaper")).
  - discriminate.
  - vm_compute. reflexivity.
  - reflexivity.
  - vm_compute. discriminate.
Defined.

(** C6 as stated fails when the marker also occurs inside the URL value.
    For the value [a#fb#f], stripping the trailing marker leaves [a#fb]; the
    worker removes the first occurrence and gives [ab#f]. *)
Lemma marker_inside_is_removed :
  regex_match Deep.pattern0 Samples.marker_twice
  = Some (jsq "{'r':[{'l':{'f':{'u':'a#fb#f'}}}]}")
  /\ option_map (fun d => Deep.result_url (Some d))
                (JSON_parse (jsq "{'r':[{'l':{'f':{'u':'a#fb#f'}}}]}"))
     = Some (Some (Some (JStr (js "a#fb#f"))))
  /\ strip_trailing_marker (js "#f") (js "a#fb#f") = js "a#fb"
  /\ Deep.extractPaperIdFromResponse Samples.marker_twice = Some (js "ab#f")
  /\ Deep.extractPaperIdFromResponse Samples.marker_twice
     <> Some (strip_trailing_marker (js "#f") (js "a#fb#f")).
Proof.
  repeat split; try (vm_compute; reflexivity).
  vm_compute. discriminate.
Qed.

(** *** Failure of the tab opener in the error handler *)

(** C1, at an input the worker can receive: the keyword [a], a search
    request that does not complete, and a tab that does not open.  The
    [catch] block of [searchForBibTex] asks for the search page, the
    rejection of [chrome.tabs.create] is thrown on by [openScholarSearch],
    and the promise of [searchForBibTex] rejects without the error
    notification.  The same happens after a response that is not [ok].  The
    variant that only opens the search page ends, in the same world, with the
    error notification and no rejection. *)
Theorem error_handler_rejects :
  run (scripted NetworkFailure NetworkFailure false) []
      (Deep.searchForBibTex (js "a"))
  = ([EvFetch (js "https://scholar.google.com/scholar?oi=gsb95&output=gsb&hl=en&q=a");
      EvTab (Some (JStr (js "https://scholar.google.com/scholar?hl=en&q=a")))],
     Rejected TabsError)
  /\ snd (run (scripted (Response false None) NetworkFailure false) []
              (Deep.searchForBibTex (js "a")))
     = Rejected TabsError
  /\ run (scripted NetworkFailure NetworkFailure false) []
         (Simple.searchForBibTex (js "a"))
     = ([EvTab (Some (JStr (js "https://scholar.google.com/scholar?hl=en&q=a")));
         EvNotify (js "SelectCite Error")
                  (js "Sorry, unable to search for citations. Please try again or search manually on Google Scholar.")],
        Fulfilled tt)
  /\ run (scripted NetworkFailure NetworkFailure true) []
         (Deep.searchForBibTex [55357])
     = ([], Rejected URIError).
Proof. vm_compute. repeat split. Qed.

(** The two ways the promise of [searchForBibTex] can reject.  When the
    normalized keyword is encoded and the tab asked for by the [catch] block
    opens, it is fulfilled whatever the requests give. *)
Lemma fulfilled_when_fallback_opens (w : world) (keyword encoded : jsstring) :
  encodeURIComponent (Deep.cleanKeyword keyword) = Some encoded ->
  (forall past, on_tabs w past (Some (JStr (Deep.scholarUrl encoded))) = true) ->
  snd (run w [] (Deep.searchForBibTex keyword)) = Fulfilled tt.
Proof.
  intros Henc Htabs. unfold Deep.searchForBibTex.
  destruct keyword as [|c k]; [reflexivity|].
  rewrite run_try_catch.
  match goal with
  | |- context [run w [] ?p] => destruct (run w [] p) as [tr [[]|e]]
  end; [reflexivity|].
  fold (Deep.cleanKeyword (c :: k)).
  rewrite run_bind, (run_openScholarSearch w (c :: k) Henc), Htabs.
  reflexivity.
Qed.

(** A keyword with a surrogate that is not part of a pair is refused by
    [encodeURIComponent] in the [try] block and again in the [catch] block:
    the promise rejects and nothing is called. *)
Lemma unpaired_surrogate_rejects (w : world) (keyword : jsstring) :
  keyword <> [] ->
  encodeURIComponent (Deep.cleanKeyword keyword) = None ->
  run w [] (Deep.searchForBibTex keyword) = ([], Rejected URIError).
Proof.
  intros Hne Henc. unfold Deep.searchForBibTex.
  destruct keyword as [|c k]; [now destruct Hne|].
  fold (Deep.cleanKeyword (c :: k)).
  rewrite run_try_catch, run_bind, run_lift, Henc.
  unfold Deep.openScholarSearch.
  rewrite run_bind, run_rethrow, run_bind, run_lift, Henc. reflexivity.
Qed.

(** *** Percent-encoding *)

(** Linear arithmetic with division and remainder by constants. *)
Ltac nlia := zify; Z.to_euclidean_division_equations; lia.

(** Case analysis on every comparison of the goal. *)
Ltac cmp :=
  repeat match goal with
         | |- context [?a <? ?b] => destruct (N.ltb_spec a b)
         | |- context [?a <=? ?b] => destruct (N.leb_spec a b)
         | |- context [?a =? ?b] => destruct (N.eqb_spec a b)
         end;
  cbn [andb orb negb].

Lemma hex_val_digit d : d < 16 -> hex_val (hex_digit d) = Some d.
Proof.
  intros H. unfold hex_val, hex_digit.
  cmp; try nlia; f_equal; nlia.
Qed.

Lemma unescape_escape b rest :
  b < 256 ->
  unescape (escape b ++ rest) = option_map (cons (Oct b)) (unescape rest).
Proof.
  intros H. unfold escape. cbn [app unescape N.eqb Pos.eqb].
  rewrite !hex_val_digit by nlia.
  replace (b / 16 * 16 + b mod 16) with b by nlia. reflexivity.
Qed.

Lemma unescape_escape_all bs rest :
  Forall (fun b => b < 256) bs ->
  unescape (escape_all bs ++ rest)
  = option_map (app (map Oct bs)) (unescape rest).
Proof.
  induction 1 as [|b bs Hb _ IH]; cbn [escape_all flat_map map app].
  - now destruct (unescape rest).
  - fold (escape_all bs). rewrite <- app_assoc, unescape_escape, IH by exact Hb.
    now destruct (unescape rest).
Qed.

Lemma utf8_octets cp : cp < 1114112 -> Forall (fun b => b < 256) (utf8 cp).
Proof.
  intros H. unfold utf8. cmp; repeat constructor; nlia.
Qed.

(** Every comparison of the goal that [lia] settles is replaced by its
    value. *)
Ltac settle :=
  repeat match goal with
         | |- context [?a <? ?b] =>
             first [ rewrite (proj2 (N.ltb_lt a b)) by lia
                   | rewrite (proj2 (N.ltb_ge a b)) by lia ]
         | |- context [?a <=? ?b] =>
             first [ rewrite (proj2 (N.leb_le a b)) by lia
                   | rewrite (proj2 (N.leb_gt a b)) by lia ]
         | |- context [?a =? ?b] =>
             first [ rewrite (proj2 (N.eqb_eq a b)) by lia
                   | rewrite (proj2 (N.eqb_neq a b)) by lia ]
         end;
  cbn [andb orb negb].

Lemma decode_utf8 cp rest :
  scalar cp ->
  decode_items (map Oct (utf8 cp) ++ rest)
  = option_map (app (utf16 cp)) (decode_items rest).
Proof.
  intros [Hmax Hsur]. unfold utf8.
  destruct (N.ltb_spec cp 128) as [H1|H1];
    [|destruct (N.ltb_spec cp 2048) as [H2|H2];
      [|destruct (N.ltb_spec cp 65536) as [H3|H3]]];
    cbn [map app decode_items].
  - settle. unfold utf16. settle. now destruct (decode_items rest).
  - set (b1 := 192 + cp / 64). set (b2 := 128 + cp mod 64).
    assert (E : (b1 - 192) * 64 + (b2 - 128) = cp) by (subst b1 b2; nlia).
    assert (B1 : 192 <= b1 < 224) by (subst b1; nlia).
    assert (B2 : 128 <= b2 <= 191) by (subst b2; nlia).
    clearbody b1 b2.
    rewrite E. unfold is_cont, valid_code_point. settle. reflexivity.
  - set (b1 := 224 + cp / 4096). set (b2 := 128 + (cp / 64) mod 64).
    set (b3 := 128 + cp mod 64).
    assert (E : (b1 - 224) * 4096 + (b2 - 128) * 64 + (b3 - 128) = cp)
      by (subst b1 b2 b3; nlia).
    assert (B1 : 224 <= b1 < 240) by (subst b1; nlia).
    assert (B2 : 128 <= b2 <= 191) by (subst b2; nlia).
    assert (B3 : 128 <= b3 <= 191) by (subst b3; nlia).
    clearbody b1 b2 b3.
    rewrite E. unfold is_cont, valid_code_point. settle.
    destruct (N.leb_spec 55296 cp); settle; reflexivity.
  - set (b1 := 240 + cp / 262144). set (b2 := 128 + (cp / 4096) mod 64).
    set (b3 := 128 + (cp / 64) mod 64). set (b4 := 128 + cp mod 64).
    assert (E : (b1 - 240) * 262144 + (b2 - 128) * 4096 + (b3 - 128) * 64
                + (b4 - 128) = cp)
      by (subst b1 b2 b3 b4; nlia).
    assert (B1 : 240 <= b1 < 248) by (subst b1; nlia).
    assert (B2 : 128 <= b2 <= 191) by (subst b2; nlia).
    assert (B3 : 128 <= b3 <= 191) by (subst b3; nlia).
    assert (B4 : 128 <= b4 <= 191) by (subst b4; nlia).
    clearbody b1 b2 b3 b4.
    rewrite E. unfold is_cont, valid_code_point. settle. reflexivity.
Qed.

Lemma utf16_unit c : c < 65536 -> utf16 c = [c].
Proof. intros H. unfold utf16. settle. reflexivity. Qed.

Lemma utf16_pair hi lo :
  is_lead hi = true -> is_trail lo = true ->
  utf16 (pair_code_point hi lo) = [hi; lo].
Proof.
  unfold is_lead, is_trail, pair_code_point, utf16. intros Hh Hl.
  apply andb_true_iff in Hh as [Hh1 Hh2]. apply andb_true_iff in Hl as [Hl1 Hl2].
  apply N.leb_le in Hh1, Hh2, Hl1, Hl2.
  settle. f_equal; [|f_equal]; nlia.
Qed.

Lemma pair_scalar hi lo :
  is_lead hi = true -> is_trail lo = true -> scalar (pair_code_point hi lo).
Proof.
  unfold is_lead, is_trail, pair_code_point, scalar. intros Hh Hl.
  apply andb_true_iff in Hh as [Hh1 Hh2]. apply andb_true_iff in Hl as [Hl1 Hl2].
  apply N.leb_le in Hh1, Hh2, Hl1, Hl2. lia.
Qed.

Lemma unit_scalar c :
  c < 65536 -> is_lead c = false -> is_trail c = false -> scalar c.
Proof.
  unfold is_lead, is_trail, scalar. intros Hc Hl Ht.
  apply andb_false_iff in Hl, Ht.
  rewrite !N.leb_gt in Hl, Ht. lia.
Qed.

Lemma unescaped_not_percent c : uri_unescaped c = true -> (c =? 37) = false.
Proof.
  intros H. destruct (N.eqb_spec c 37) as [->|]; [discriminate H|reflexivity].
Qed.

(** The items of an escaped code point decode to its code units. *)
Lemma decode_escaped cp encoded s :
  scalar cp ->
  decodeURIComponent encoded = Some s ->
  decodeURIComponent (escape_all (utf8 cp) ++ encoded) = Some (utf16 cp ++ s).
Proof.
  intros Hcp. unfold decodeURIComponent.
  rewrite unescape_escape_all by (apply utf8_octets, Hcp).
  destruct (unescape encoded) as [l|]; [|discriminate].
  cbn [option_map]. rewrite decode_utf8 by exact Hcp.
  intros ->. reflexivity.
Qed.

Lemma uri_roundtrip_bounded n :
  forall s encoded,
    (List.length s <= n)%nat ->
    code_units s ->
    encodeURIComponent s = Some encoded ->
    decodeURIComponent encoded = Some s.
Proof.
  induction n as [|n IH]; intros s encoded Hlen Hs Henc.
  - destruct s; [|cbn in Hlen; lia]. cbn in Henc. injection Henc as <-.
    reflexivity.
  - destruct s as [|c t]; [cbn in Henc; injection Henc as <-; reflexivity|].
    cbn [encodeURIComponent] in Henc. cbn [List.length] in Hlen.
    inversion Hs as [|c' t' Hc Ht]; subst.
    destruct (uri_unescaped c) eqn:Hu.
    + destruct (encodeURIComponent t) as [e|] eqn:Et; [|discriminate].
      injection Henc as <-.
      assert (IHt := IH t e ltac:(lia) Ht Et).
      unfold decodeURIComponent in *. cbn [unescape].
      rewrite (unescaped_not_percent _ Hu).
      destruct (unescape e) as [l|]; [|discriminate]. cbn [option_map decode_items].
      rewrite IHt. reflexivity.
    + destruct (is_lead c) eqn:Hl.
      * destruct t as [|d t']; [discriminate|].
        destruct (is_trail d) eqn:Hd; [|discriminate].
        destruct (encodeURIComponent t') as [e|] eqn:Et; [|discriminate].
        injection Henc as <-. inversion Ht as [|d' t'' Hdc Ht']; subst.
        cbn [List.length] in Hlen.
        rewrite (@decode_escaped _ e t' (@pair_scalar c d Hl Hd)
                                 (IH t' e ltac:(lia) Ht' Et)).
        rewrite (@utf16_pair c d Hl Hd). reflexivity.
      * destruct (is_trail c) eqn:Htr; [discriminate|].
        destruct (encodeURIComponent t) as [e|] eqn:Et; [|discriminate].
        injection Henc as <-.
        rewrite (@decode_escaped c e t (@unit_scalar c Hc Hl Htr)
                                 (IH t e ltac:(lia) Ht Et)).
        rewrite (@utf16_unit c Hc). reflexivity.
Qed.

Lemma uri_roundtrip s encoded :
  code_units s ->
  encodeURIComponent s = Some encoded ->
  decodeURIComponent encoded = Some s.
Proof. apply (@uri_roundtrip_bounded (List.length s)). lia. Qed.

Lemma trim_start_units s : code_units s -> code_units (trim_start s).
Proof.
  induction 1 as [|c s Hc Hs IH]; cbn [trim_start]; [constructor|].
  destruct (is_space c); [exact IH|constructor; assumption].
Qed.

Lemma trim_units s : code_units s -> code_units (trim s).
Proof.
  intros H. unfold trim, trim_end, code_units.
  apply Forall_rev, trim_start_units, Forall_rev, trim_start_units, H.
Qed.

Lemma replace_runs_units by_ in_run s :
  code_units by_ -> code_units s -> code_units (replace_runs by_ in_run s).
Proof.
  intros Hby Hs. revert in_run.
  induction Hs as [|c s Hc Hs IH]; intros in_run; cbn [replace_runs];
    [constructor|].
  destruct (is_space c); [destruct in_run|].
  - apply IH.
  - apply Forall_app. split; [exact Hby|apply IH].
  - constructor; [exact Hc|apply IH].
Qed.

(** A text without surrogates is always encoded. *)
Lemma encode_without_surrogates s :
  Forall (fun c => is_lead c = false /\ is_trail c = false) s ->
  exists encoded, encodeURIComponent s = Some encoded.
Proof.
  induction 1 as [|c s [Hl Ht] _ [e IH]]; cbn [encodeURIComponent]; [eauto|].
  rewrite Hl, Ht, IH. destruct (uri_unescaped c); cbn [option_map]; eauto.
Qed.

(** C9. For a keyword of 16-bit code units, normalized as either variant
    of the worker does (trimmed, the runs of white space replaced by [+] or
    by a space), [decodeURIComponent] gives back the normalized keyword from
    what [encodeURIComponent] made of it. *)
Theorem normalized_keyword_roundtrip (keyword : jsstring) :
  code_units keyword ->
  (forall encoded,
      encodeURIComponent (Deep.cleanKeyword keyword) = Some encoded ->
      decodeURIComponent encoded = Some (Deep.cleanKeyword keyword))
  /\ (forall encoded,
         encodeURIComponent (Simple.cleanKeyword keyword) = Some encoded ->
         decodeURIComponent encoded = Some (Simple.cleanKeyword keyword)).
Proof.
  intros Hk. split; intros encoded; apply uri_roundtrip;
    apply replace_runs_units; try apply trim_units; try exact Hk;
    repeat constructor.
Qed.

Lemma normalized_keyword_roundtrip_witness :
  decodeURIComponent (js "C%2B%2B%2B%26%2BRust%3A%2B100%25%2Bsafe%3F")
  = Some (js "C+++&+Rust:+100%+safe?")
  /\ decodeURIComponent (js "C%2B%2B%20%26%20Rust%3A%20100%25%20safe%3F")
     = Some (js "C++ & Rust: 100% safe?").
Proof.
  split.
  - apply (proj1 (normalized_keyword_roundtrip
                    (keyword := js "  C++ &  Rust: 100% safe? ")
                    ltac:(repeat constructor))
                 (js "C%2B%2B%2B%26%2BRust%3A%2B100%25%2Bsafe%3F")).
    vm_compute. reflexivity.
  - apply (proj2 (normalized_keyword_roundtrip
                    (keyword := js "  C++ &  Rust: 100% safe? ")
                    ltac:(repeat constructor))
                 (js "C%2B%2B%20%26%20Rust%3A%20100%25%20safe%3F")).
    vm_compute. reflexivity.
Defined.

(* ================================================================== *)
(** ** Further properties *)

(** *** Normalization of the keyword *)

Lemma trim_start_split s :
  exists pre, s = pre ++ trim_start s /\ forallb is_space pre = true.
Proof.
  induction s as [|c s [pre [E F]]]; cbn [trim_start].
  - exists []. auto.
  - destruct (is_space c) eqn:Hc.
    + exists (c :: pre). cbn [app forallb]. rewrite Hc, F, <- E. auto.
    + exists []. auto.
Qed.

Lemma trim_start_head s :
  match trim_start s with
  | c :: _ => is_space c = false
  | [] => True
  end.
Proof.
  induction s as [|c s IH]; cbn [trim_start]; [exact I|].
  destruct (is_space c) eqn:Hc; [exact IH|exact Hc].
Qed.

Lemma trim_start_fixed s :
  match s with c :: _ => is_space c = false | [] => True end ->
  trim_start s = s.
Proof. destruct s as [|c s]; cbn [trim_start]; [reflexivity|]. now intros ->. Qed.

(** A trimmed text is empty, or begins and ends with a code unit that is
    not white space. *)
Lemma trim_ends s :
  trim s = []
  \/ exists a mid z,
       (trim s = [a] \/ trim s = a :: mid ++ [z])
       /\ is_space a = false /\ is_space z = false
       /\ hd a (trim s) = a /\ last (trim s) a = z.
Proof.
  unfold trim, trim_end.
  set (t := trim_start s).
  pose proof (trim_start_head s) as Ht. fold t in Ht.
  destruct (trim_start_split (rev t)) as [pre [E F]].
  pose proof (trim_start_head (rev t)) as Hb.
  set (b := trim_start (rev t)) in *.
  destruct b as [|z b']; [left; reflexivity|right].
  assert (Et : t = rev b' ++ z :: rev pre).
  { rewrite <- (rev_involutive t), E, rev_app_distr. cbn [rev].
    now rewrite <- app_assoc. }
  cbn [rev].
  destruct (rev b') as [|a mid] eqn:Eb; cbn [app] in *.
  - exists z, [], z. repeat split; auto.
  - exists a, mid, z. rewrite Et in Ht. cbn in Ht.
    repeat split; auto.
    rewrite app_comm_cons. apply last_last.
Qed.

Lemma trim_end_fixed s a :
  s <> [] -> is_space (last s a) = false -> trim_end s = s.
Proof.
  intros Hne Hl. unfold trim_end.
  destruct (exists_last Hne) as [s' [z ->]].
  rewrite last_last in Hl. rewrite rev_app_distr. cbn [rev app trim_start].
  rewrite Hl. cbn [rev]. now rewrite rev_involutive.
Qed.

(** [trim] leaves a text as it is when the text begins and ends with a
    code unit that is not white space. *)
Lemma trim_fixed s a :
  s <> [] -> is_space (hd a s) = false -> is_space (last s a) = false ->
  trim s = s.
Proof.
  intros Hne Hh Hl. unfold trim.
  rewrite (trim_start_fixed s) by (destruct s; [exact I|exact Hh]).
  now apply trim_end_fixed with a.
Qed.

Lemma trim_idempotent s : trim (trim s) = trim s.
Proof.
  destruct (trim_ends s) as [->|(a & mid & z & Hs & Ha & Hz & Hh & Hl)];
    [reflexivity|].
  apply trim_fixed with a.
  - destruct Hs as [-> | ->]; discriminate.
  - now rewrite Hh.
  - now rewrite Hl.
Qed.

Lemma replace_runs_spaceless by_ in_run s :
  spaceless by_ -> spaceless (replace_runs by_ in_run s).
Proof.
  intros Hby. revert in_run.
  induction s as [|c s IH]; intros in_run; cbn [replace_runs]; [constructor|].
  destruct (is_space c) eqn:Hc; [destruct in_run|].
  - apply IH.
  - apply Forall_app. split; [exact Hby|apply IH].
  - constructor; [exact Hc|apply IH].
Qed.

Lemma replace_runs_fixed by_ in_run s :
  spaceless s -> replace_runs by_ in_run s = s.
Proof.
  intros H. revert in_run.
  induction H as [|c s Hc _ IH]; intros in_run; cbn [replace_runs];
    [reflexivity|].
  rewrite Hc, IH. reflexivity.
Qed.

Lemma spaceless_trim s : spaceless s -> trim s = s.
Proof.
  intros H. destruct s as [|c s]; [reflexivity|].
  apply trim_fixed with c.
  - discriminate.
  - now inversion H.
  - destruct (exists_last (l := c :: s) ltac:(discriminate)) as [s' [z E]].
    rewrite E, last_last. apply (proj1 (Forall_forall _ _) H).
    rewrite E. apply in_or_app. right. now left.
Qed.

Lemma replace_runs_cons by_ in_run c s :
  replace_runs by_ in_run (c :: s)
  = if is_space c then
      if in_run then replace_runs by_ true s
      else by_ ++ replace_runs by_ true s
    else c :: replace_runs by_ false s.
Proof. reflexivity. Qed.

Lemma replace_runs_last by_ in_run s d :
  s <> [] -> is_space (last s d) = false ->
  replace_runs by_ in_run s <> []
  /\ last (replace_runs by_ in_run s) d = last s d.
Proof.
  revert in_run. induction s as [|c s IH]; intros in_run Hne Hl;
    [now destruct Hne|].
  destruct s as [|c' s'].
  - cbn [last] in Hl. cbn [replace_runs]. rewrite Hl. split; [discriminate|].
    reflexivity.
  - assert (Hs : c' :: s' <> []) by discriminate.
    change (last (c :: c' :: s') d) with (last (c' :: s') d) in *.
    rewrite replace_runs_cons.
    destruct (is_space c); [destruct in_run|].
    + apply (IH true Hs Hl).
    + destruct (IH true Hs Hl) as [Hn El]. split.
      * intros E. apply app_eq_nil in E. now destruct E.
      * destruct (exists_last Hn) as [r [z Er]].
        rewrite Er in El |- *. rewrite app_assoc, !last_last in *. exact El.
    + destruct (IH false Hs Hl) as [Hn El]. split; [discriminate|].
      destruct (replace_runs by_ false (c' :: s')) eqn:E; [now destruct Hn|].
      exact El.
Qed.

Lemma replace_runs_single_spaced in_run s :
  single_spaced in_run (replace_runs (js " ") in_run s) = true.
Proof.
  revert in_run. induction s as [|c s IH]; intros in_run; cbn [replace_runs];
    [reflexivity|].
  destruct (is_space c) eqn:Hc; [destruct in_run|].
  - apply IH.
  - change (js " " ++ replace_runs (js " ") true s)
      with (32 :: replace_runs (js " ") true s).
    cbn [single_spaced]. change (is_space 32) with true. cbn. apply IH.
  - cbn [single_spaced]. rewrite Hc. apply IH.
Qed.

Lemma single_spaced_fixed in_run s :
  single_spaced in_run s = true -> replace_runs (js " ") in_run s = s.
Proof.
  revert in_run. induction s as [|c s IH]; intros in_run; cbn [single_spaced replace_runs];
    [reflexivity|].
  destruct (is_space c) eqn:Hc.
  - intros H. apply andb_true_iff in H as [H Hs].
    apply andb_true_iff in H as [Hr Hc32].
    destruct in_run; [discriminate Hr|]. apply N.eqb_eq in Hc32. subst c.
    rewrite (IH true Hs). reflexivity.
  - intros H. now rewrite (IH false H).
Qed.

(** What normalization keeps of a trimmed text: its being empty or not,
    and its first and last code unit. *)
Lemma replace_runs_trimmed by_ s a :
  trim s <> [] ->
  replace_runs by_ false (trim s) <> []
  /\ is_space (hd a (replace_runs by_ false (trim s))) = false
  /\ is_space (last (replace_runs by_ false (trim s)) a) = false.
Proof.
  intros Hne.
  destruct (trim_ends s) as [E|(x & mid & z & Hs & Hx & Hz & Hh & Hl)];
    [now destruct Hne|].
  assert (Hl' : is_space (last (trim s) a) = false).
  { destruct Hs as [E|E]; rewrite E in *.
    - exact Hx.
    - rewrite app_comm_cons, last_last in *. exact Hz. }
  destruct (replace_runs_last by_ false a Hne Hl') as [Hn El].
  split; [exact Hn|]. split; [|now rewrite El].
  destruct Hs as [E|E]; rewrite E; cbn [replace_runs]; rewrite Hx; exact Hx.
Qed.

(** X1.  The keyword of the worker with extraction, once normalized, holds
    no white space at all; it is empty exactly when the keyword is blank;
    and normalizing it again (as the [catch] block does) changes nothing. *)
Theorem deep_keyword_normal (keyword : jsstring) :
  spaceless (Deep.cleanKeyword keyword)
  /\ (Deep.cleanKeyword keyword = [] <-> trim keyword = [])
  /\ Deep.cleanKeyword (Deep.cleanKeyword keyword) = Deep.cleanKeyword keyword.
Proof.
  assert (Hs : spaceless (Deep.cleanKeyword keyword))
    by (apply replace_runs_spaceless; repeat constructor).
  split; [exact Hs|]. split.
  - unfold Deep.cleanKeyword, replace_spaces. split.
    + intros E. destruct (trim keyword) eqn:Et; [reflexivity|].
      destruct (@replace_runs_trimmed (js "+") keyword 0) as [Hn _];
        rewrite Et in *; [discriminate|]. now destruct Hn.
    + intros ->. reflexivity.
  - unfold Deep.cleanKeyword at 1. rewrite (spaceless_trim Hs).
    apply replace_runs_fixed, Hs.
Qed.

Lemma deep_keyword_normal_witness :
  Deep.cleanKeyword (js "   ") = [] /\ trim (js " a  b ") <> [].
Proof.
  split.
  - apply (proj2 (proj1 (proj2 (deep_keyword_normal (js "   "))))).
    reflexivity.
  - intros E.
    apply (proj2 (proj1 (proj2 (deep_keyword_normal (js " a  b "))))) in E.
    vm_compute in E. discriminate E.
Defined.

(** X2.  The keyword of the worker that only opens the search page, once
    normalized, has single spaces for all its white space, and neither
    begins nor ends with white space ([trim] leaves it as it is);
    normalizing it again changes nothing. *)
Theorem simple_keyword_normal (keyword : jsstring) :
  single_spaced false (Simple.cleanKeyword keyword) = true
  /\ trim (Simple.cleanKeyword keyword) = Simple.cleanKeyword keyword
  /\ Simple.cleanKeyword (Simple.cleanKeyword keyword)
     = Simple.cleanKeyword keyword.
Proof.
  assert (H1 : single_spaced false (Simple.cleanKeyword keyword) = true)
    by apply replace_runs_single_spaced.
  assert (H2 : trim (Simple.cleanKeyword keyword) = Simple.cleanKeyword keyword).
  { unfold Simple.cleanKeyword, replace_spaces.
    destruct (trim keyword) eqn:Et; [reflexivity|]. rewrite <- Et.
    destruct (@replace_runs_trimmed (js " ") keyword 0) as (Hn & Hh & Hl);
      [rewrite Et; discriminate|].
    now apply trim_fixed with 0. }
  split; [exact H1|]. split; [exact H2|].
  unfold Simple.cleanKeyword at 1. rewrite H2.
  apply single_spaced_fixed, H1.
Qed.

(** X3.  On a keyword that holds no white space once trimmed (a single
    word), the two variants normalize alike, to the trimmed keyword. *)
Theorem variants_agree_on_one_word (keyword : jsstring) :
  spaceless (trim keyword) ->
  Deep.cleanKeyword keyword = trim keyword
  /\ Simple.cleanKeyword keyword = trim keyword.
Proof.
  intros H. split; apply replace_runs_fixed, H.
Qed.

Lemma variants_agree_on_one_word_witness :
  Deep.cleanKeyword (js "  transformer ") = js "transformer"
  /\ Simple.cleanKeyword (js "  transformer ") = js "transformer".
Proof.
  apply (@variants_agree_on_one_word (js "  transformer ")).
  vm_compute. repeat constructor.
Defined.

(** *** The listeners *)

Lemma encode_nonempty s encoded :
  s <> [] -> encodeURIComponent s = Some encoded -> encoded <> [].
Proof.
  destruct s as [|c t]; [congruence|]. intros _. cbn [encodeURIComponent].
  destruct (uri_unescaped c).
  - destruct (encodeURIComponent t); [|discriminate].
    intros H. injection H as <-. discriminate.
  - assert (Hesc : forall cp rest, escape_all (utf8 cp) ++ rest <> []).
    { intros cp rest. unfold utf8.
      destruct (cp <? 128); [|destruct (cp <? 2048); [|destruct (cp <? 65536)]];
        discriminate. }
    destruct (is_lead c).
    + destruct t as [|d t']; [discriminate|].
      destruct (is_trail d); [|discriminate].
      destruct (encodeURIComponent t'); [|discriminate].
      intros H. injection H as <-. apply Hesc.
    + destruct (is_trail c); [discriminate|].
      destruct (encodeURIComponent t); [|discriminate].
      intros H. injection H as <-. apply Hesc.
Qed.

(** X4.  The query that the context-menu listener hands to
    [searchForBibTex] is the trimmed selection; it is never empty, [trim]
    leaves it as it is, its normalization is not empty, and so is the value
    of the [q] parameter of the search URL. *)
Theorem clicked_query_is_trimmed (info : Deep.click_info) (query : jsstring) :
  Deep.clicked_query info = Some query ->
  Deep.menuItemId info = js "selectcite-search"
  /\ (exists text, Deep.selectionText info = Some text /\ query = trim text)
  /\ query <> []
  /\ trim query = query
  /\ Deep.cleanKeyword query <> []
  /\ forall encoded,
      encodeURIComponent (Deep.cleanKeyword query) = Some encoded ->
      encoded <> [].
Proof.
  unfold Deep.clicked_query.
  destruct (Deep.selectionText info) as [[|c text]|] eqn:Et; try discriminate.
  destruct (JsString.eqb (Deep.menuItemId info) (js "selectcite-search")) eqn:Ei;
    [|discriminate].
  destruct (trim (c :: text)) as [|a q] eqn:Eq; [discriminate|].
  cbn [List.length Nat.ltb Nat.leb]. intros H. injection H as <-.
  assert (Hq : trim (a :: q) = a :: q) by (rewrite <- Eq; apply trim_idempotent).
  assert (Hc : Deep.cleanKeyword (a :: q) <> []).
  { intros E. apply (proj1 (proj1 (proj2 (deep_keyword_normal (a :: q))))) in E.
    rewrite Hq in E. discriminate E. }
  split; [now apply eqb_eq|]. split; [exists (c :: text); auto|].
  split; [discriminate|]. split; [exact Hq|]. split; [exact Hc|].
  intros encoded. now apply encode_nonempty.
Qed.

Lemma clicked_query_is_trimmed_witness :
  Deep.menuItemId (Deep.ClickInfo (js "selectcite-search") (Some (js " deep  learning ")))
  = js "selectcite-search"
  /\ (exists text,
         Deep.selectionText
           (Deep.ClickInfo (js "selectcite-search") (Some (js " deep  learning ")))
         = Some text
         /\ js "deep  learning" = trim text)
  /\ js "deep  learning" <> []
  /\ trim (js "deep  learning") = js "deep  learning"
  /\ Deep.cleanKeyword (js "deep  learning") <> []
  /\ forall encoded,
      encodeURIComponent (Deep.cleanKeyword (js "deep  learning")) = Some encoded ->
      encoded <> [].
Proof.
  apply (@clicked_query_is_trimmed
           (Deep.ClickInfo (js "selectcite-search") (Some (js " deep  learning ")))).
  reflexivity.
Defined.

(** X5.  Whatever the reason of the installation event, the listener
    registers one menu item, for selections; a click on that item with a
    selection that is not blank reaches the pipeline with the trimmed
    selection.  The welcome notification is shown for the reason [install]
    and for no other. *)
Theorem registered_item_is_answered (reason : jsstring) :
  exists item rest,
    Lifecycle.onInstalled reason = Lifecycle.MenuCreate item :: rest
    /\ Lifecycle.item_contexts item = [js "selection"]
    /\ (forall c, In c rest -> exists t m, c = Lifecycle.WelcomeNotify t m)
    /\ (rest <> [] <-> reason = js "install")
    /\ forall text,
        trim text <> [] ->
        Deep.clicked_query (Deep.ClickInfo (Lifecycle.item_id item) (Some text))
        = Some (trim text).
Proof.
  unfold Lifecycle.onInstalled. eexists. eexists. split; [reflexivity|].
  split; [reflexivity|]. split; [|split].
  - intros c. destruct (JsString.eqb reason (js "install")); [|intros []].
    intros [<-|[]]. eauto.
  - destruct (JsString.eqb reason (js "install")) eqn:E.
    + apply eqb_eq in E. split; [auto|discriminate].
    + split; [intros H; now destruct H|].
      intros ->. rewrite eqb_refl in E. discriminate E.
  - intros text Hne. unfold Deep.clicked_query.
    cbn [Lifecycle.item_id Deep.selectionText Deep.menuItemId].
    destruct text as [|c text]; [now destruct Hne|].
    rewrite eqb_refl.
    destruct (trim (c :: text)); [now destruct Hne|]. reflexivity.
Qed.

Lemma registered_item_is_answered_witness :
  exists item rest,
    Lifecycle.onInstalled (js "update") = Lifecycle.MenuCreate item :: rest
    /\ Deep.clicked_query
         (Deep.ClickInfo (Lifecycle.item_id item) (Some (js " deep learning ")))
       = Some (js "deep learning").
Proof.
  destruct (registered_item_is_answered (js "update"))
    as (item & rest & E & _ & _ & _ & H).
  exists item, rest. split; [exact E|].
  apply (H (js " deep learning ")). vm_compute. discriminate.
Defined.

(** X6.  A click on the icon of the extension asks for one tab, the home
    page of Google Scholar, and shows its notification only when the tab
    opened; the listener absorbs a failure of the tab opener and its promise
    is fulfilled in every world. *)
Theorem icon_click_never_rejects (w : world) :
  run w [] Lifecycle.onActionClicked
  = ([EvTab (Some (JStr (js "https://scholar.google.com/")))]
       ++ (if on_tabs w [] (Some (JStr (js "https://scholar.google.com/")))
           then [EvNotify (js "SelectCite")
                          (js "Google Scholar opened. You can search manually or select text on any page and right-click.")]
           else []),
      Fulfilled tt).
Proof.
  unfold Lifecycle.onActionClicked.
  rewrite run_try_catch, run_bind, run_tabs_create.
  destruct (on_tabs w [] _); reflexivity.
Qed.

(** *** The matcher and the identifier *)

Section MatcherFacts.
Variable R : Type.
Variable k : jsstring -> option R.

Lemma star_greedy_inv cls s r :
  star_greedy cls k s = Some r ->
  exists mid rest,
    s = mid ++ rest /\ forallb cls mid = true /\ k rest = Some r.
Proof.
  induction s as [|c s IH]; cbn [star_greedy].
  - intros H. exists [], []. auto.
  - destruct (cls c) eqn:Hc.
    + destruct (star_greedy cls k s) as [r'|] eqn:E.
      * intros H. injection H as <-.
        destruct (IH eq_refl) as (mid & rest & -> & Hm & Hk).
        exists (c :: mid), rest. cbn [app forallb]. rewrite Hc, Hm. auto.
      * intros H. exists [], (c :: s). auto.
    + intros H. exists [], (c :: s). auto.
Qed.

Lemma star_lazy_inv cls s r :
  star_lazy cls k s = Some r ->
  exists mid rest,
    s = mid ++ rest /\ forallb cls mid = true /\ k rest = Some r.
Proof.
  induction s as [|c s IH]; cbn [star_lazy].
  - destruct (k []) eqn:E; [|discriminate].
    intros H. injection H as <-. exists [], []. auto.
  - destruct (k (c :: s)) eqn:E.
    + intros H. injection H as <-. exists [], (c :: s). auto.
    + destruct (cls c) eqn:Hc; [|discriminate]. intros H.
      destruct (IH H) as (mid & rest & -> & Hm & Hk).
      exists (c :: mid), rest. cbn [app forallb]. rewrite Hc, Hm. auto.
Qed.
End MatcherFacts.

(** A sequence that matches consumed a prefix of the input and its
    continuation accepted the rest. *)
Lemma seq_inv {R} (r : list node) (k : jsstring -> option R) s c :
  seq r k s = Some c ->
  exists used rest, s = used ++ rest /\ k rest = Some c.
Proof.
  revert k s. induction r as [|n r IH]; intros k s; cbn [seq].
  - intros H. exists [], s. auto.
  - destruct n as [x|[|] cls|cls].
    + destruct s as [|y s]; [discriminate|].
      destruct (y =? x); [|discriminate]. intros H.
      destruct (IH _ _ H) as (used & rest & -> & Hk).
      exists (y :: used), rest. auto.
    + intros H. destruct (star_greedy_inv _ _ _ H) as (mid & s' & -> & _ & H').
      destruct (IH _ _ H') as (used & rest & -> & Hk).
      exists (mid ++ used), rest. rewrite app_assoc. auto.
    + intros H. destruct (star_lazy_inv _ _ _ H) as (mid & s' & -> & _ & H').
      destruct (IH _ _ H') as (used & rest & -> & Hk).
      exists (mid ++ used), rest. rewrite app_assoc. auto.
    + destruct s as [|y s]; [discriminate|].
      destruct (cls y); [|discriminate]. intros H.
      destruct (star_greedy_inv _ _ _ H) as (mid & s' & -> & _ & H').
      destruct (IH _ _ H') as (used & rest & -> & Hk).
      exists (y :: mid ++ used), rest. cbn [app]. rewrite app_assoc. auto.
Qed.

(** Literal code units at the head of an expression are the head of the
    input. *)
Lemma seq_literal {R} (a : jsstring) (r : list node)
      (k : jsstring -> option R) s :
  seq (map Chr a ++ r) k s
  = if is_prefix a s then seq r k (skipn (List.length a) s) else None.
Proof.
  revert s. induction a as [|x a IH]; intros s; cbn [map app seq is_prefix].
  - reflexivity.
  - destruct s as [|y s]; [reflexivity|].
    rewrite N.eqb_sym. destruct (x =? y); cbn [andb List.length skipn];
      [apply IH|reflexivity].
Qed.

Lemma is_prefix_split a s :
  is_prefix a s = true -> s = a ++ skipn (List.length a) s.
Proof.
  revert s. induction a as [|x a IH]; intros [|y s]; cbn [is_prefix];
    try reflexivity; try discriminate.
  intros H. apply andb_true_iff in H as [Hx Ha]. apply N.eqb_eq in Hx. subst y.
  cbn [List.length skipn app]. f_equal. now apply IH.
Qed.

Lemma regex_match_inv p s c :
  regex_match p s = Some c ->
  exists before rest, s = before ++ rest /\ exec_at p rest = Some c.
Proof.
  induction s as [|x s IH]; cbn [regex_match].
  - destruct (exec_at p []) eqn:E; [|discriminate].
    intros H. injection H as <-. exists [], []. auto.
  - destruct (exec_at p (x :: s)) eqn:E.
    + intros H. injection H as <-. exists [], (x :: s). auto.
    + intros H. destruct (IH H) as (before & rest & -> & Hr).
      exists (x :: before), rest. auto.
Qed.

Lemma regex_match_found p before rest c :
  exec_at p rest = Some c -> regex_match p (before ++ rest) <> None.
Proof.
  intros H. induction before as [|x before IH]; cbn [app].
  - destruct rest; cbn [regex_match]; rewrite H; discriminate.
  - cbn [regex_match]. destruct (exec_at p (x :: before ++ rest));
      [discriminate|exact IH].
Qed.

Lemma firstn_consumed {A} (a b : list A) :
  firstn (List.length (a ++ b) - List.length b) (a ++ b) = a.
Proof.
  rewrite length_app, Nat.add_sub, firstn_app, Nat.sub_diag, firstn_all.
  cbn [firstn]. apply app_nil_r.
Qed.

(** The group of an expression whose group is [cls+] is not empty and is
    made of code units of the class. *)
Lemma plus_group p cls s c :
  grp p = [Plus cls] -> exec_at p s = Some c ->
  c <> [] /\ forallb cls c = true.
Proof.
  intros Hg H. unfold exec_at in H. rewrite Hg in H.
  destruct (seq_inv _ _ _ H) as (_ & s1 & _ & H1). cbn [seq] in H1.
  destruct s1 as [|x s1]; [discriminate|].
  destruct (cls x) eqn:Hx; [|discriminate].
  destruct (star_greedy_inv _ _ _ H1) as (mid & s2 & -> & Hm & H2).
  destruct (seq_inv _ _ _ H2) as (_ & _ & _ & H3).
  assert (E : c = x :: mid).
  { rewrite <- (firstn_consumed (x :: mid) s2). cbn [app]. congruence. }
  subst c. split; [discriminate|].
  cbn [forallb]. now rewrite Hx, Hm.
Qed.

Lemma not_chr_forall x c :
  forallb (not_chr x) c = true -> ~ In x c.
Proof.
  induction c as [|y c IH]; cbn [forallb In]; [tauto|].
  intros H. apply andb_true_iff in H as [Hy Hc]. unfold not_chr in Hy.
  apply negb_true_iff, N.eqb_neq in Hy. intros [E|E]; [congruence|].
  now apply IH.
Qed.

(** Where pattern 3 matches, the expression of the final scan matches
    eleven code units further. *)
Lemma pattern3_holds_cite_link s c :
  exec_at Deep.pattern3 s = Some c ->
  exists rest,
    s = jsq "data-href='" ++ rest /\ exec_at Deep.cite_pattern rest = Some c.
Proof.
  unfold exec_at.
  change (pre Deep.pattern3)
    with (map Chr (jsq "data-href='") ++ pre Deep.cite_pattern).
  rewrite seq_literal.
  destruct (is_prefix (jsq "data-href='") s) eqn:Hp; [|discriminate].
  intros H. eexists. split; [apply (is_prefix_split _ _ Hp)|exact H].
Qed.

Lemma pattern3_implies_cite_link body :
  regex_match Deep.cite_pattern body = None ->
  regex_match Deep.pattern3 body = None.
Proof.
  intros Hc. destruct (regex_match Deep.pattern3 body) as [c|] eqn:E;
    [|reflexivity].
  destruct (regex_match_inv _ _ E) as (before & rest & -> & H).
  destruct (pattern3_holds_cite_link _ H) as (rest' & -> & H').
  rewrite app_assoc in Hc.
  now destruct (@regex_match_found _ (before ++ jsq "data-href='") _ _ H').
Qed.

(** What extraction gives when pattern 0 does not match. *)
Lemma extract_without_assignment body :
  regex_match Deep.pattern0 body = None ->
  Deep.extractPaperIdFromResponse body
  = match regex_match Deep.pattern3 body with
    | Some id => Some id
    | None => regex_match Deep.cite_pattern body
    end.
Proof.
  intros H0.
  unfold Deep.extractPaperIdFromResponse, Deep.patterns, Deep.try_patterns,
    Deep.try_pattern.
  rewrite H0.
  destruct (regex_match Deep.pattern1 body);
    destruct (regex_match Deep.pattern2 body);
    destruct (regex_match Deep.pattern3 body); reflexivity.
Qed.

(** X7.  An identifier taken from an info link (pattern 3 or the final
    scan, pattern 0 not matching) is never empty and holds no colon: the
    worker always goes on to the citation request with it. *)
Theorem info_link_identifier_shape (body id : jsstring) :
  regex_match Deep.pattern0 body = None ->
  Deep.extractPaperIdFromResponse body = Some id ->
  id <> [] /\ ~ In 58 id.
Proof.
  intros H0 H. rewrite (extract_without_assignment _ H0) in H.
  assert (Hex : exists p s, grp p = [Plus (not_chr 58)] /\ exec_at p s = Some id).
  { destruct (regex_match Deep.pattern3 body) as [c|] eqn:E3.
    - injection H as ->. destruct (regex_match_inv _ _ E3) as (_ & s & _ & Hs).
      exists Deep.pattern3, s. auto.
    - destruct (regex_match_inv _ _ H) as (_ & s & _ & Hs).
      exists Deep.cite_pattern, s. auto. }
  destruct Hex as (p & s & Hg & Hs).
  destruct (plus_group _ _ Hg Hs) as [Hne Hall].
  split; [exact Hne|]. now apply not_chr_forall.
Qed.

Lemma info_link_identifier_shape_witness :
  js "ABC" <> [] /\ ~ In 58 (js "ABC").
Proof.
  apply (@info_link_identifier_shape
           (jsq "<a href='/scholar?q=info:ABC:scholar.google.com/'>Cite</a>")
           (js "ABC")); vm_compute; reflexivity.
Defined.

(** X8.  On a body in which pattern 0 does not match, extraction gives
    [null] exactly when the body holds no cite link. *)
Theorem null_iff_no_cite_link (body : jsstring) :
  regex_match Deep.pattern0 body = None ->
  (Deep.extractPaperIdFromResponse body = None
   <-> regex_match Deep.cite_pattern body = None).
Proof.
  intros H0. rewrite (extract_without_assignment _ H0). split.
  - destruct (regex_match Deep.pattern3 body); [discriminate|auto].
  - intros Hc. now rewrite (pattern3_implies_cite_link _ Hc).
Qed.

Lemma null_iff_no_cite_link_witness :
  Deep.extractPaperIdFromResponse (jsq "<a data-clk='x'>Cite</a>") = None
  <-> regex_match Deep.cite_pattern (jsq "<a data-clk='x'>Cite</a>") = None.
Proof.
  apply (@null_iff_no_cite_link (jsq "<a data-clk='x'>Cite</a>")).
  vm_compute. reflexivity.
Defined.

(** X9.  When pattern 0 matches and the text of its group is not JSON,
    extraction gives [null] whatever else the body holds; when the text is
    JSON and the object has no member [r], the assignment is passed over and
    the info-link patterns decide. *)
Theorem assignment_without_result (body captured : jsstring) :
  regex_match Deep.pattern0 body = Some captured ->
  (JSON_parse captured = None ->
   Deep.extractPaperIdFromResponse body = None)
  /\ (forall searchData,
         JSON_parse captured = Some searchData ->
         get_prop (js "r") (Some searchData) = Some None ->
         Deep.extractPaperIdFromResponse body
         = match regex_match Deep.pattern3 body with
           | Some id => Some id
           | None => regex_match Deep.cite_pattern body
           end).
Proof.
  intros H0.
  assert (E : Deep.extractPaperIdFromResponse body
              = match
                  match JSON_parse captured with
                  | None => Deep.Thrown
                  | Some searchData =>
                      match Deep.has_result_url (Some searchData) with
                      | None => Deep.Thrown
                      | Some false =>
                          Deep.try_patterns 1 (tl Deep.patterns) body
                      | Some true =>
                          match Deep.result_url (Some searchData) with
                          | Some (Some (JStr u)) =>
                              Deep.Return (replace_first (js "#f") [] u)
                          | _ => Deep.Thrown
                          end
                      end
                  end
                with
                | Deep.Return id => Some id
                | Deep.Continue => regex_match Deep.cite_pattern body
                | Deep.Thrown => None
                end).
  { unfold Deep.extractPaperIdFromResponse, Deep.patterns.
    cbn [Deep.try_patterns tl]. unfold Deep.try_pattern at 1.
    rewrite H0. cbn [Nat.eqb].
    destruct (JSON_parse captured) as [d|]; [|reflexivity].
    destruct (Deep.has_result_url (Some d)) as [[|]|]; try reflexivity.
    destruct (Deep.result_url (Some d)) as [[[]|]|]; reflexivity. }
  rewrite E. split.
  - intros Hp. rewrite Hp. reflexivity.
  - intros searchData Hp Hr. rewrite Hp. unfold Deep.has_result_url.
    rewrite Hr. cbn [Deep.obind truthy negb Deep.patterns tl Deep.try_patterns].
    unfold Deep.try_pattern.
    destruct (regex_match Deep.pattern1 body);
      destruct (regex_match Deep.pattern2 body);
      destruct (regex_match Deep.pattern3 body); reflexivity.
Qed.

Lemma assignment_without_result_witness :
  Deep.extractPaperIdFromResponse Samples.broken_assignment = None
  /\ Deep.extractPaperIdFromResponse
       (jsq "window.googleSearchResponse = {'x':1}; /scholar?q=info:ID9:scholar.google.com")
     = Some (js "ID9").
Proof.
  split.
  - apply (proj1 (@assignment_without_result Samples.broken_assignment
                    (js "{r:[]}") ltac:(vm_compute; reflexivity))).
    vm_compute. reflexivity.
  - eapply (proj2 (@assignment_without_result
                     (jsq "window.googleSearchResponse = {'x':1}; /scholar?q=info:ID9:scholar.google.com")
                     (jsq "{'x':1}") ltac:(vm_compute; reflexivity)));
      vm_compute; reflexivity.
Defined.

(** *** Tabs, notifications and requests of a run *)

Lemma opened_after_app w past a b :
  opened_after w past (a ++ b)
  = (opened_after w past a + opened_after w (past ++ a) b)%nat.
Proof.
  revert past. induction a as [|e a IH]; intros past; cbn [app opened_after].
  - now rewrite app_nil_r.
  - rewrite IH, <- app_assoc. cbn [app]. lia.
Qed.

Lemma opened_snoc w tr e :
  opened w (tr ++ [e]) = (opened w tr + tab_opened w tr e)%nat.
Proof.
  unfold opened. rewrite opened_after_app. cbn [app opened_after]. lia.
Qed.

Lemma noted_app a b : noted (a ++ b) = (noted a + noted b)%nat.
Proof.
  induction a as [|[] a IH]; cbn [app noted]; rewrite ?IH; reflexivity.
Qed.

Lemma requests_app a b : requests (a ++ b) = requests a ++ requests b.
Proof.
  induction a as [|[] a IH]; cbn [app requests]; rewrite ?IH; reflexivity.
Qed.

(** Every call of a run is rewritten into its answer, and every condition
    of the worker into its two cases. *)
Ltac answers w :=
  repeat first
    [ rewrite run_rethrow
    | rewrite run_bind
    | rewrite run_try_catch
    | rewrite run_fetch
    | rewrite run_tabs_create
    | rewrite run_notify
    | rewrite run_lift
    | progress cbn [fst snd run response_text]
    | match goal with
      | |- context [on_fetch w ?p ?u] =>
          destruct (on_fetch w p u) as [|[|] [?|]] eqn:?
      | |- context [on_tabs w ?p ?u] => destruct (on_tabs w p u) eqn:?
      | |- context [JSON_parse ?t] => destruct (JSON_parse t) eqn:?
      | |- context [Deep.first_is_bibtex ?d] =>
          destruct (Deep.first_is_bibtex d) as [[|]|] eqn:?
      | |- context [Deep.first_url ?d] => destruct (Deep.first_url d) eqn:?
      | |- context [regex_match Deep.anchor_pattern ?t] =>
          destruct (regex_match Deep.anchor_pattern t) eqn:?
      | |- context [encodeURIComponent ?t] =>
          destruct (encodeURIComponent t) eqn:?
      end ].

(** The counts of a trace written as calls added one by one. *)
Ltac counts :=
  unfold settles_once; cbn [fst snd];
  repeat rewrite opened_snoc; repeat rewrite noted_app;
  repeat rewrite requests_app;
  cbn [tab_opened noted requests];
  repeat match goal with
         | H : on_tabs _ _ _ = _ |- _ => progress rewrite H
         end;
  repeat rewrite app_nil_r;
  repeat split; try lia; try reflexivity.

Lemma getBibTex_counts (w : world) (paperId : jsstring) (past : list event) :
  settles_once w past (run w past (Deep.getBibTexFromPaperId paperId))
  /\ requests (fst (run w past (Deep.getBibTexFromPaperId paperId)))
     = requests past ++ [Deep.citeUrl paperId].
Proof.
  unfold Deep.getBibTexFromPaperId, Deep.open_bibtex_link.
  answers w; counts.
Qed.


Lemma searchForBibTex_counts (w : world) (keyword : jsstring) :
  keyword <> [] ->
  settles_once w [] (run w [] (Deep.searchForBibTex keyword))
  /\ requests (fst (run w [] (Deep.searchForBibTex keyword)))
     = match encodeURIComponent (Deep.cleanKeyword keyword) with
       | None => []
       | Some encoded =>
           Deep.searchUrl encoded
           :: match on_fetch w [] (Deep.searchUrl encoded) with
              | Response true (Some searchText) =>
                  match Deep.extractPaperIdFromResponse searchText with
                  | Some ((_ :: _) as paperId) => [Deep.citeUrl paperId]
                  | _ => []
                  end
              | _ => []
              end
       end.
Proof.
  intros Hne. unfold Deep.searchForBibTex, Deep.openScholarSearch,
    Deep.showErrorNotification, Deep.cleanKeyword.
  destruct keyword as [|c k]; [now destruct Hne|].
  rewrite run_try_catch, run_bind, run_lift.
  destruct (encodeURIComponent (replace_spaces (js "+") (trim (c :: k))))
    as [encoded|] eqn:Henc; cbn [fst snd].
  - rewrite run_bind, run_fetch.
    destruct (on_fetch w [] (Deep.searchUrl encoded)) as [|[|] [searchText|]];
      cbn [fst snd].
    + answers w; rewrite ?Henc; answers w; counts.
    + do 2 (rewrite run_bind; cbn [run fst snd response_text]).
      destruct (Deep.extractPaperIdFromResponse searchText) as [[|c' id]|].
      * answers w; rewrite ?Henc; answers w; counts.
      * destruct (getBibTex_counts w (c' :: id) ([] ++ [EvFetch (Deep.searchUrl encoded)]))
          as [Hs Hr].
        destruct (run w ([] ++ [EvFetch (Deep.searchUrl encoded)])
                      (Deep.getBibTexFromPaperId (c' :: id))) as [tr [[]|e]];
          unfold settles_once in Hs; cbn [fst snd] in Hs, Hr;
          rewrite opened_snoc, noted_app in Hs; cbn [tab_opened noted] in Hs;
          destruct Hs as [Ho Hn].
        -- unfold settles_once. cbn [fst snd]. rewrite Ho, Hn, Hr.
           repeat split; reflexivity.
        -- answers w; rewrite ?Henc; answers w; counts;
             rewrite ?Ho, ?Hn, ?Hr; try reflexivity; try lia.
      * answers w; rewrite ?Henc; answers w; counts.
    + answers w; rewrite ?Henc; answers w; counts.
    + answers w; rewrite ?Henc; answers w; counts.
    + answers w; rewrite ?Henc; answers w; counts.
  - answers w; rewrite ?Henc; answers w; counts.
Qed.



(** X12.  For a keyword that is not empty, [searchForBibTex] makes no
    request when the keyword cannot be encoded, otherwise the search
    request, followed by the citation request exactly when the search
    response is read and extraction gives an identifier that is not empty;
    it never makes a third request. *)
Theorem pipeline_requests (w : world) (keyword : jsstring) :
  keyword <> [] ->
  requests (fst (run w [] (Deep.searchForBibTex keyword)))
  = match encodeURIComponent (Deep.cleanKeyword keyword) with
    | None => []
    | Some encoded =>
        Deep.searchUrl encoded
        :: match on_fetch w [] (Deep.searchUrl encoded) with
           | Response true (Some searchText) =>
               match Deep.extractPaperIdFromResponse searchText with
               | Some ((_ :: _) as paperId) => [Deep.citeUrl paperId]
               | _ => []
               end
           | _ => []
           end
    end.
Proof. intros Hne. exact (proj2 (searchForBibTex_counts w Hne)). Qed.

Lemma pipeline_requests_witness :
  requests
    (fst (run (scripted (Response true (Some Samples.marker_twice))
                        NetworkFailure true)
              [] (Deep.searchForBibTex (js "a paper"))))
  = [Deep.searchUrl (js "a%2Bpaper"); Deep.citeUrl (js "ab#f")].
Proof.
  rewrite (@pipeline_requests
             (scripted (Response true (Some Samples.marker_twice))
                       NetworkFailure true)
             (js "a paper") ltac:(discriminate)).
  vm_compute. reflexivity.
Defined.

(** *** Failures of the requests and of the tab opener *)

Lemma failed_cases r :
  failed r ->
  r = NetworkFailure
  \/ (exists text, r = Response false text)
  \/ r = Response true None.
Proof.
  destruct r as [|[|] [t|]]; cbn [failed]; intros H; eauto.
  destruct H; discriminate.
Qed.

Lemma run_handler (w : world) (keyword encoded : jsstring) tr :
  encodeURIComponent (Deep.cleanKeyword keyword) = Some encoded ->
  run w tr (Deep.openScholarSearch (replace_spaces (js "+") (trim keyword)) ;;
            Deep.showErrorNotification)
  = opening w tr (Some (JStr (Deep.scholarUrl encoded)))
            error_title error_message.
Proof.
  intros Henc. unfold Deep.cleanKeyword in Henc.
  unfold Deep.openScholarSearch, Deep.showErrorNotification, opening.
  rewrite run_bind, run_rethrow, run_bind, run_lift, Henc, run_tabs_create.
  destruct (on_tabs w tr _); [rewrite run_notify, <- app_assoc|]; reflexivity.
Qed.

(** X13.  When the search request does not complete, or its status is not
    a success, or its body cannot be read, the worker makes no other
    request: it asks for the search page of the normalized keyword and, the
    tab open, shows the error notification. *)
Theorem search_failure_falls_back (w : world) (keyword encoded : jsstring) :
  keyword <> [] ->
  encodeURIComponent (Deep.cleanKeyword keyword) = Some encoded ->
  failed (on_fetch w [] (Deep.searchUrl encoded)) ->
  run w [] (Deep.searchForBibTex keyword)
  = opening w [EvFetch (Deep.searchUrl encoded)]
            (Some (JStr (Deep.scholarUrl encoded)))
            error_title error_message.
Proof.
  intros Hne Henc Hfail. unfold Deep.searchForBibTex.
  destruct keyword as [|c k]; [now destruct Hne|].
  rewrite run_try_catch, run_bind, run_lift, Henc, run_bind, run_fetch.
  destruct (failed_cases _ Hfail) as [E|[[text E]|E]]; rewrite E;
    cbn [fst snd app run response_text].
  - apply (run_handler w (c :: k) _ Henc).
  - rewrite run_bind. cbn [fst snd run].
    apply (run_handler w (c :: k) _ Henc).
  - do 2 (rewrite run_bind; cbn [fst snd run response_text]).
    apply (run_handler w (c :: k) _ Henc).
Qed.

Lemma search_failure_falls_back_witness :
  run (scripted (Response false (Some (js "Too many requests"))) NetworkFailure true)
      [] (Deep.searchForBibTex (js "a paper"))
  = ([EvFetch (Deep.searchUrl (js "a%2Bpaper"));
      EvTab (Some (JStr (Deep.scholarUrl (js "a%2Bpaper"))));
      EvNotify error_title error_message],
     Fulfilled tt).
Proof.
  apply (@search_failure_falls_back
           (scripted (Response false (Some (js "Too many requests")))
                     NetworkFailure true)
           (js "a paper") (js "a%2Bpaper")).
  - discriminate.
  - vm_compute. reflexivity.
  - left. reflexivity.
Defined.

(** X14.  When an identifier was found and the citation request does not
    complete, or its status is not a success, or its body cannot be read, no
    citation tab is asked for: the worker asks for the search page of the
    normalized keyword and, the tab open, shows the error notification. *)
Theorem cite_failure_falls_back
        (w : world) (keyword encoded searchText paperId : jsstring) :
  keyword <> [] ->
  encodeURIComponent (Deep.cleanKeyword keyword) = Some encoded ->
  on_fetch w [] (Deep.searchUrl encoded) = Response true (Some searchText) ->
  Deep.extractPaperIdFromResponse searchText = Some paperId ->
  paperId <> [] ->
  failed (on_fetch w [EvFetch (Deep.searchUrl encoded)] (Deep.citeUrl paperId)) ->
  run w [] (Deep.searchForBibTex keyword)
  = opening w [EvFetch (Deep.searchUrl encoded); EvFetch (Deep.citeUrl paperId)]
            (Some (JStr (Deep.scholarUrl encoded)))
            error_title error_message.
Proof.
  intros Hne Henc Hfetch Hid Hp Hfail.
  rewrite (run_searchForBibTex w Hne Henc Hfetch), Hid.
  destruct paperId as [|c id]; [now destruct Hp|].
  assert (Hrun : exists e,
             run w [EvFetch (Deep.searchUrl encoded)]
                 (Deep.getBibTexFromPaperId (c :: id))
             = ([EvFetch (Deep.searchUrl encoded); EvFetch (Deep.citeUrl (c :: id))],
                Rejected e)).
  { unfold Deep.getBibTexFromPaperId.
    rewrite run_rethrow, run_bind, run_fetch.
    destruct (failed_cases _ Hfail) as [E|[[text E]|E]]; rewrite E;
      cbn [fst snd app run response_text].
    - eauto.
    - rewrite run_bind. cbn [fst snd run]. eauto.
    - do 2 (rewrite run_bind; cbn [fst snd run response_text]). eauto. }
  destruct Hrun as [e ->].
  unfold Deep.cleanKeyword.
  apply (run_handler w keyword _ Henc).
Qed.

Lemma cite_failure_falls_back_witness :
  run (scripted (Response true (Some Samples.marker_twice)) NetworkFailure true)
      [] (Deep.searchForBibTex (js "a paper"))
  = ([EvFetch (Deep.searchUrl (js "a%2Bpaper"));
      EvFetch (Deep.citeUrl (js "ab#f"));
      EvTab (Some (JStr (Deep.scholarUrl (js "a%2Bpaper"))));
      EvNotify error_title error_message],
     Fulfilled tt).
Proof.
  apply (@cite_failure_falls_back
           (scripted (Response true (Some Samples.marker_twice))
                     NetworkFailure true)
           (js "a paper") (js "a%2Bpaper") Samples.marker_twice (js "ab#f")).
  - discriminate.
  - vm_compute. reflexivity.
  - reflexivity.
  - vm_compute. reflexivity.
  - discriminate.
  - exact I.
Defined.

(** X15.  When no identifier is found and the tab of the search page does
    not open, the [catch] block asks for the same search page a second time;
    the second tab open, the notification shown is the error notification. *)
Theorem fallback_is_asked_twice
        (w : world) (keyword encoded searchText : jsstring) :
  keyword <> [] ->
  encodeURIComponent (Deep.cleanKeyword keyword) = Some encoded ->
  on_fetch w [] (Deep.searchUrl encoded) = Response true (Some searchText) ->
  Deep.extractPaperIdFromResponse searchText = None ->
  on_tabs w [EvFetch (Deep.searchUrl encoded)]
          (Some (JStr (Deep.scholarUrl encoded))) = false ->
  run w [] (Deep.searchForBibTex keyword)
  = opening w [EvFetch (Deep.searchUrl encoded);
               EvTab (Some (JStr (Deep.scholarUrl encoded)))]
            (Some (JStr (Deep.scholarUrl encoded)))
            error_title error_message.
Proof.
  intros Hne Henc Hfetch Hid Htab.
  rewrite (run_searchForBibTex w Hne Henc Hfetch), Hid.
  rewrite run_bind, (run_openScholarSearch w keyword Henc), Htab.
  unfold Deep.cleanKeyword. apply (run_handler w keyword _ Henc).
Qed.

Lemma fallback_is_asked_twice_witness :
  run (World (fun _ _ => Response true (Some Samples.no_identifier))
             (fun past _ => match past with [_] => false | _ => true end))
      [] (Deep.searchForBibTex (js "a paper"))
  = ([EvFetch (Deep.searchUrl (js "a%2Bpaper"));
      EvTab (Some (JStr (Deep.scholarUrl (js "a%2Bpaper"))));
      EvTab (Some (JStr (Deep.scholarUrl (js "a%2Bpaper"))));
      EvNotify error_title error_message],
     Fulfilled tt).
Proof.
  apply (@fallback_is_asked_twice
           (World (fun _ _ => Response true (Some Samples.no_identifier))
                  (fun past _ => match past with [_] => false | _ => true end))
           (js "a paper") (js "a%2Bpaper") Samples.no_identifier).
  - discriminate.
  - vm_compute. reflexivity.
  - reflexivity.
  - vm_compute. reflexivity.
  - reflexivity.
Defined.

(** X16.  When the citation response is JSON whose first entry is labelled
    BibTeX and the tab for the URL of that entry does not open, the rejection
    is caught like a parse failure: the worker goes on with the anchor scan,
    and then with the citation page. *)
Theorem failed_link_tab_is_caught
        (w : world) (paperId citeText : jsstring)
        (citeData entry : json) (others : list json) (url : jsval) :
  on_fetch w [] (Deep.citeUrl paperId) = Response true (Some citeText) ->
  JSON_parse citeText = Some citeData ->
  get_prop (js "i") (Some citeData) = Some (Some (JArr (entry :: others))) ->
  get_prop (js "l") (Some entry) = Some (Some (JStr (js "BibTeX"))) ->
  get_prop (js "u") (Some entry) = Some url ->
  on_tabs w [EvFetch (Deep.citeUrl paperId)] url = false ->
  run w [] (Deep.getBibTexFromPaperId paperId)
  = match regex_match Deep.anchor_pattern citeText with
    | Some href =>
        opening w [EvFetch (Deep.citeUrl paperId); EvTab url]
                (Some (JStr href)) Deep.success_title Deep.success_message
    | None =>
        opening w [EvFetch (Deep.citeUrl paperId); EvTab url]
                (Some (JStr (Deep.citeUrl paperId)))
                (js "SelectCite") Deep.cite_page_message
    end.
Proof.
  intros Hfetch Hparse Hi Hl Hu Htab.
  destruct (first_entry_condition _ Hi Hl Hu) as [Hfirst Hurl].
  rewrite (run_getBibTex w paperId Hfetch).
  rewrite run_bind. unfold Deep.open_bibtex_link.
  rewrite run_try_catch, run_bind, run_lift, Hparse.
  rewrite run_bind, run_lift, Hfirst.
  rewrite run_bind, run_lift, Hurl.
  rewrite run_bind, run_tabs_create, Htab. cbn [fst snd app].
  destruct (regex_match Deep.anchor_pattern citeText) as [href|].
  - rewrite (run_open_and_notify w _ _ _ _ true). unfold opening.
    destruct (on_tabs w _ (Some (JStr href))); reflexivity.
  - cbn [run]. apply run_cite_page.
Qed.

Lemma failed_link_tab_is_caught_witness :
  run (World (fun _ _ => Response true (Some Samples.bibtex_first))
             (fun past _ => match past with [_] => false | _ => true end))
      [] (Deep.getBibTexFromPaperId (js "ABC"))
  = ([EvFetch (Deep.citeUrl (js "ABC"));
      EvTab (Some (JStr (js "http://b")));
      EvTab (Some (JStr (Deep.citeUrl (js "ABC"))));
      EvNotify (js "SelectCite") Deep.cite_page_message],
     Fulfilled tt).
Proof.
  eapply (@failed_link_tab_is_caught
            (World (fun _ _ => Response true (Some Samples.bibtex_first))
                   (fun past _ => match past with [_] => false | _ => true end))
            (js "ABC") Samples.bibtex_first).
  - reflexivity.
  - vm_compute. reflexivity.
  - vm_compute. reflexivity.
  - vm_compute. reflexivity.
  - vm_compute. reflexivity.
  - reflexivity.
Defined.

(** *** The variant that only opens the search page *)



(** X18.  The keyword quoted in the notification of that variant is cut to
    at most fifty code units followed by three dots: it never exceeds 53
    code units, it begins like the keyword, and a keyword of at most fifty
    code units is quoted whole. *)
Theorem quoted_keyword_is_bounded (cleanKeyword : jsstring) :
  (List.length (Simple.shortened cleanKeyword) <= 53)%nat
  /\ firstn 50 (Simple.shortened cleanKeyword) = firstn 50 cleanKeyword
  /\ ((List.length cleanKeyword <= 50)%nat ->
      Simple.shortened cleanKeyword = cleanKeyword).
Proof.
  unfold Simple.shortened.
  destruct (Nat.ltb_spec 50 (List.length cleanKeyword)) as [H|H].
  - split; [|split].
    + rewrite length_app, firstn_length_le by lia. cbn. lia.
    + rewrite firstn_app, firstn_firstn, firstn_length_le by lia.
      cbn [Nat.min Nat.sub firstn]. apply app_nil_r.
    + lia.
  - split; [lia|]. split; reflexivity.
Qed.

Lemma quoted_keyword_is_bounded_witness :
  Simple.shortened (js "Attention Is All You Need")
  = js "Attention Is All You Need".
Proof.
  apply (proj2 (proj2 (quoted_keyword_is_bounded
                         (js "Attention Is All You Need")))).
  vm_compute. lia.
Defined.

(** *** The encoded keyword in the URL *)

Lemma hex_digit_safe d : d < 16 -> url_safe (hex_digit d) = true.
Proof.
  intros H. unfold url_safe, uri_unescaped, hex_digit.
  destruct (N.ltb_spec d 10).
  - replace ((48 <=? 48 + d) && (48 + d <=? 57)) with true; [now rewrite ?orb_true_r|].
    symmetry. apply andb_true_iff. split; apply N.leb_le; lia.
  - replace ((65 <=? 55 + d) && (55 + d <=? 90)) with true; [reflexivity|].
    symmetry. apply andb_true_iff. split; apply N.leb_le; lia.
Qed.

Lemma escape_all_safe bs rest :
  Forall (fun b => b < 256) bs ->
  forallb url_safe rest = true ->
  forallb url_safe (escape_all bs ++ rest) = true.
Proof.
  intros Hbs Hr. induction Hbs as [|b bs Hb _ IH]; [exact Hr|].
  cbn [escape_all flat_map escape app forallb]. fold (escape_all bs).
  rewrite IH, !hex_digit_safe by nlia. reflexivity.
Qed.

Lemma encode_safe_bounded n :
  forall s encoded,
    (List.length s <= n)%nat ->
    code_units s ->
    encodeURIComponent s = Some encoded ->
    forallb url_safe encoded = true.
Proof.
  induction n as [|n IH]; intros s encoded Hlen Hs Henc.
  - destruct s; [|cbn in Hlen; lia]. cbn in Henc. injection Henc as <-.
    reflexivity.
  - destruct s as [|c t]; [cbn in Henc; injection Henc as <-; reflexivity|].
    cbn [encodeURIComponent] in Henc. cbn [List.length] in Hlen.
    inversion Hs as [|c' t' Hc Ht]; subst.
    destruct (uri_unescaped c) eqn:Hu.
    + destruct (encodeURIComponent t) as [e|] eqn:Et; [|discriminate].
      injection Henc as <-. cbn [forallb]. unfold url_safe at 1.
      rewrite Hu. apply (IH t e ltac:(lia) Ht Et).
    + destruct (is_lead c) eqn:Hl.
      * destruct t as [|d t']; [discriminate|].
        destruct (is_trail d) eqn:Hd; [|discriminate].
        destruct (encodeURIComponent t') as [e|] eqn:Et; [|discriminate].
        injection Henc as <-. inversion Ht as [|d' t'' Hdc Ht']; subst.
        cbn [List.length] in Hlen.
        apply escape_all_safe;
          [apply utf8_octets, (@pair_scalar c d Hl Hd)
          |apply (IH t' e ltac:(lia) Ht' Et)].
      * destruct (is_trail c) eqn:Htr; [discriminate|].
        destruct (encodeURIComponent t) as [e|] eqn:Et; [|discriminate].
        injection Henc as <-.
        apply escape_all_safe;
          [apply utf8_octets, (@unit_scalar c Hc Hl Htr)
          |apply (IH t e ltac:(lia) Ht Et)].
Qed.

Lemma clean_units keyword :
  code_units keyword -> code_units (Deep.cleanKeyword keyword).
Proof.
  intros H. apply replace_runs_units; [repeat constructor|apply trim_units, H].
Qed.

(** X19.  The value the worker puts after [q=] holds nothing but letters,
    digits, the marks [- _ . ! ~ * ' ( )] and percent signs: the keyword can
    add neither a parameter nor a fragment nor a space to the URL. *)
Theorem encoded_keyword_is_url_safe (keyword encoded : jsstring) :
  code_units keyword ->
  encodeURIComponent (Deep.cleanKeyword keyword) = Some encoded ->
  forallb url_safe encoded = true
  /\ ~ In 38 encoded /\ ~ In 35 encoded /\ ~ In 61 encoded
  /\ ~ In 63 encoded /\ ~ In 32 encoded /\ ~ In 43 encoded.
Proof.
  intros Hk Henc.
  assert (H : forallb url_safe encoded = true)
    by (apply (@encode_safe_bounded (List.length (Deep.cleanKeyword keyword))
                 (Deep.cleanKeyword keyword)); auto using clean_units).
  split; [exact H|].
  assert (Hin : forall c, url_safe c = false -> ~ In c encoded).
  { intros c Hc Hi. rewrite forallb_forall in H. rewrite (H c Hi) in Hc.
    discriminate Hc. }
  repeat split; apply Hin; reflexivity.
Qed.

Lemma encoded_keyword_is_url_safe_witness :
  forallb url_safe (js "C%2B%2B%2B%26%2BRust%3A%2B100%25%2Bsafe%3F") = true
  /\ ~ In 38 (js "C%2B%2B%2B%26%2BRust%3A%2B100%25%2Bsafe%3F")
  /\ ~ In 35 (js "C%2B%2B%2B%26%2BRust%3A%2B100%25%2Bsafe%3F")
  /\ ~ In 61 (js "C%2B%2B%2B%26%2BRust%3A%2B100%25%2Bsafe%3F")
  /\ ~ In 63 (js "C%2B%2B%2B%26%2BRust%3A%2B100%25%2Bsafe%3F")
  /\ ~ In 32 (js "C%2B%2B%2B%26%2BRust%3A%2B100%25%2Bsafe%3F")
  /\ ~ In 43 (js "C%2B%2B%2B%26%2BRust%3A%2B100%25%2Bsafe%3F").
Proof.
  apply (@encoded_keyword_is_url_safe (js "  C++ &  Rust: 100% safe? ")).
  - repeat constructor.
  - vm_compute. reflexivity.
Defined.

(** X20.  Two keywords are sent as the same search URL only when they
    normalize to the same text. *)
Theorem search_url_is_injective (keyword1 keyword2 encoded1 encoded2 : jsstring) :
  code_units keyword1 -> code_units keyword2 ->
  encodeURIComponent (Deep.cleanKeyword keyword1) = Some encoded1 ->
  encodeURIComponent (Deep.cleanKeyword keyword2) = Some encoded2 ->
  Deep.searchUrl encoded1 = Deep.searchUrl encoded2 ->
  Deep.cleanKeyword keyword1 = Deep.cleanKeyword keyword2.
Proof.
  intros H1 H2 E1 E2 Hurl. unfold Deep.searchUrl in Hurl.
  apply app_inv_head in Hurl. subst encoded2.
  apply (@uri_roundtrip _ _ (clean_units H1)) in E1.
  apply (@uri_roundtrip _ _ (clean_units H2)) in E2.
  congruence.
Qed.

Lemma search_url_is_injective_witness :
  Deep.cleanKeyword (js " deep   learning") = Deep.cleanKeyword (js "deep learning ").
Proof.
  apply (@search_url_is_injective
           (js " deep   learning") (js "deep learning ")
           (js "deep%2Blearning") (js "deep%2Blearning"));
    try (repeat constructor); vm_compute; reflexivity.
Defined.

(** *** The whole pipeline *)

(** X21.  The whole path to the BibTeX link.  When the search response
    yields an identifier, the citation response is JSON whose first entry is
    labelled BibTeX, and the tab opens, the run is the search request, the
    citation request for that identifier, the tab of the URL of the entry and
    the success notification, and nothing else. *)
Theorem direct_link_path
        (w : world) (keyword encoded searchText paperId citeText : jsstring)
        (citeData entry : json) (others : list json) (url : jsval) :
  keyword <> [] ->
  encodeURIComponent (Deep.cleanKeyword keyword) = Some encoded ->
  on_fetch w [] (Deep.searchUrl encoded) = Response true (Some searchText) ->
  Deep.extractPaperIdFromResponse searchText = Some paperId ->
  paperId <> [] ->
  on_fetch w [EvFetch (Deep.searchUrl encoded)] (Deep.citeUrl paperId)
  = Response true (Some citeText) ->
  JSON_parse citeText = Some citeData ->
  get_prop (js "i") (Some citeData) = Some (Some (JArr (entry :: others))) ->
  get_prop (js "l") (Some entry) = Some (Some (JStr (js "BibTeX"))) ->
  get_prop (js "u") (Some entry) = Some url ->
  on_tabs w [EvFetch (Deep.searchUrl encoded); EvFetch (Deep.citeUrl paperId)]
          url = true ->
  run w [] (Deep.searchForBibTex keyword)
  = ([EvFetch (Deep.searchUrl encoded);
      EvFetch (Deep.citeUrl paperId);
      EvTab url;
      EvNotify Deep.success_title Deep.success_message],
     Fulfilled tt).
Proof.
  intros Hne Henc Hsearch Hid Hp Hcite Hparse Hi Hl Hu Htab.
  destruct (first_entry_condition _ Hi Hl Hu) as [Hfirst Hurl].
  rewrite (run_searchForBibTex w Hne Henc Hsearch), Hid.
  destruct paperId as [|c id]; [now destruct Hp|].
  unfold Deep.getBibTexFromPaperId, Deep.open_bibtex_link.
  rewrite run_rethrow, run_bind, run_fetch, Hcite. cbn [fst snd app].
  do 2 (rewrite run_bind; cbn [fst snd run response_text]).
  rewrite run_bind, run_try_catch, run_bind, run_lift, Hparse. cbn [fst snd].
  rewrite run_bind, run_lift, Hfirst. cbn [fst snd].
  rewrite run_bind, run_lift, Hurl. cbn [fst snd].
  rewrite run_bind, run_tabs_create, Htab. cbn [fst snd app].
  rewrite run_bind, run_notify. reflexivity.
Qed.

Lemma direct_link_path_witness :
  run (scripted (Response true (Some Samples.marker_twice))
                (Response true (Some Samples.bibtex_first)) true)
      [] (Deep.searchForBibTex (js "a paper"))
  = ([EvFetch (Deep.searchUrl (js "a%2Bpaper"));
      EvFetch (Deep.citeUrl (js "ab#f"));
      EvTab (Some (JStr (js "http://b")));
      EvNotify Deep.success_title Deep.success_message],
     Fulfilled tt).
Proof.
  eapply (@direct_link_path
            (scripted (Response true (Some Samples.marker_twice))
                      (Response true (Some Samples.bibtex_first)) true)
            (js "a paper") (js "a%2Bpaper") Samples.marker_twice (js "ab#f")
            Samples.bibtex_first).
  - discriminate.
  - vm_compute. reflexivity.
  - reflexivity.
  - vm_compute. reflexivity.
  - discriminate.
  - reflexivity.
  - vm_compute. reflexivity.
  - vm_compute. reflexivity.
  - vm_compute. reflexivity.
  - vm_compute. reflexivity.
  - reflexivity.
Defined.

(** *** Well-formed keywords *)

Lemma space_is_plain c : is_space c = true -> plain c = true.
Proof.
  intros Hs. unfold plain, is_lead, is_trail.
  destruct (N.leb_spec 55296 c) as [H|H]; cbn [andb negb].
  - destruct (N.leb_spec c 57343) as [H'|H'].
    + exfalso. revert Hs. unfold is_space. settle. discriminate.
    + destruct (N.leb_spec c 56319); [lia|]. cbn.
      destruct (N.leb_spec 56320 c); reflexivity.
  - destruct (N.leb_spec 56320 c); [lia|]. reflexivity.
Qed.

Lemma well_formed_plain c s :
  plain c = true -> well_formed (c :: s) = well_formed s.
Proof.
  unfold plain. intros H. apply andb_true_iff in H as [Hl Ht].
  cbn [well_formed]. apply negb_true_iff in Hl. rewrite Hl, Ht. reflexivity.
Qed.

Lemma well_formed_plain_prefix pre s :
  forallb plain pre = true -> well_formed (pre ++ s) = well_formed s.
Proof.
  induction pre as [|c pre IH]; cbn [forallb app]; [reflexivity|].
  intros H. apply andb_true_iff in H as [Hc Hp].
  rewrite (@well_formed_plain c (pre ++ s) Hc). auto.
Qed.

Lemma well_formed_plain_suffix_bounded n :
  forall s post,
    (List.length s <= n)%nat ->
    forallb plain post = true ->
    well_formed (s ++ post) = true -> well_formed s = true.
Proof.
  induction n as [|n IH]; intros s post Hlen Hp H.
  - destruct s; [reflexivity|cbn in Hlen; lia].
  - destruct s as [|c t]; [reflexivity|]. cbn [List.length] in Hlen.
    cbn [app well_formed] in *.
    destruct (is_lead c) eqn:Hl.
    + destruct t as [|d t']; cbn [app] in *.
      * destruct post as [|p post]; [discriminate|].
        cbn [forallb] in Hp. apply andb_true_iff in Hp as [Hp _].
        unfold plain in Hp. apply andb_true_iff in Hp as [_ Hp].
        apply andb_true_iff in H as [H _]. rewrite H in Hp. discriminate.
      * cbn [List.length] in Hlen. apply andb_true_iff in H as [Hd H].
        rewrite Hd. apply (IH t' post ltac:(lia) Hp H).
    + apply andb_true_iff in H as [Hc H]. rewrite Hc.
      apply (IH t post ltac:(lia) Hp H).
Qed.

Lemma spaces_are_plain s : forallb is_space s = true -> forallb plain s = true.
Proof.
  induction s as [|c s IH]; cbn [forallb]; [reflexivity|].
  intros H. apply andb_true_iff in H as [Hc Hs].
  now rewrite (@space_is_plain c Hc), IH.
Qed.

Lemma forallb_rev {A} (f : A -> bool) l :
  forallb f l = true -> forallb f (rev l) = true.
Proof.
  intros H. apply forallb_forall. intros x Hx. apply in_rev in Hx.
  now apply (proj1 (forallb_forall f l) H).
Qed.

Lemma well_formed_trim s : well_formed s = true -> well_formed (trim s) = true.
Proof.
  intros H. unfold trim, trim_end.
  destruct (trim_start_split s) as [pre [E F]].
  destruct (trim_start_split (rev (trim_start s))) as [pre2 [E2 F2]].
  set (b := trim_start (rev (trim_start s))) in *.
  assert (Ea : trim_start s = rev b ++ rev pre2)
    by (rewrite <- (rev_involutive (trim_start s)), E2, rev_app_distr;
        reflexivity).
  rewrite E, Ea, (@well_formed_plain_prefix pre _ (@spaces_are_plain pre F)) in H.
  apply (@well_formed_plain_suffix_bounded (List.length (rev b)) (rev b)
           (rev pre2)); auto using forallb_rev, spaces_are_plain.
Qed.

Lemma well_formed_replace_runs_bounded by_ n :
  forallb plain by_ = true ->
  forall s in_run,
    (List.length s <= n)%nat ->
    well_formed s = true -> well_formed (replace_runs by_ in_run s) = true.
Proof.
  intros Hby. induction n as [|n IH]; intros s in_run Hlen H.
  - destruct s; [reflexivity|cbn in Hlen; lia].
  - destruct s as [|c t]; [reflexivity|]. cbn [List.length] in Hlen.
    rewrite replace_runs_cons.
    destruct (is_space c) eqn:Hs.
    + rewrite (@well_formed_plain c t (@space_is_plain c Hs)) in H.
      destruct in_run; [|rewrite well_formed_plain_prefix by exact Hby];
        apply IH; auto; lia.
    + cbn [well_formed] in *. destruct (is_lead c) eqn:Hl.
      * destruct t as [|d t']; [discriminate|].
        apply andb_true_iff in H as [Hd H]. cbn [List.length] in Hlen.
        rewrite replace_runs_cons.
        assert (Hds : is_space d = false).
        { destruct (is_space d) eqn:E; [|reflexivity].
          apply space_is_plain in E. unfold plain in E.
          rewrite Hd in E. now rewrite andb_false_r in E. }
        rewrite Hds, Hd. apply IH; auto; lia.
      * apply andb_true_iff in H as [Hc H]. rewrite Hc. apply IH; auto; lia.
Qed.

Lemma lead_is_escaped c : is_lead c = true -> uri_unescaped c = false.
Proof.
  unfold is_lead, uri_unescaped. intros H.
  apply andb_true_iff in H as [H _]. apply N.leb_le in H. settle. reflexivity.
Qed.

Lemma well_formed_encodes_bounded n :
  forall s,
    (List.length s <= n)%nat -> well_formed s = true ->
    exists encoded, encodeURIComponent s = Some encoded.
Proof.
  induction n as [|n IH]; intros s Hlen H.
  - destruct s; [cbn; eauto|cbn in Hlen; lia].
  - destruct s as [|c t]; [cbn; eauto|]. cbn [List.length] in Hlen.
    cbn [well_formed encodeURIComponent] in *.
    destruct (is_lead c) eqn:Hl.
    + destruct t as [|d t']; [discriminate|].
      apply andb_true_iff in H as [Hd H]. cbn [List.length] in Hlen.
      destruct (IH t' ltac:(lia) H) as [e ->].
      rewrite (@lead_is_escaped c Hl), Hd. cbn [option_map]. eauto.
    + apply andb_true_iff in H as [Hc H]. apply negb_true_iff in Hc.
      destruct (IH t ltac:(lia) H) as [e ->]. rewrite Hc.
      destruct (uri_unescaped c); cbn [option_map]; eauto.
Qed.

(** X22.  For a keyword that is well-formed UTF-16, in a world in which
    every tab opens, the promise of [searchForBibTex] is fulfilled whatever
    the two requests give: a failed request, a status that is not a success,
    a body that cannot be read or that holds nothing to extract all end in a
    tab and a notification. *)
Theorem well_formed_keyword_is_fulfilled (w : world) (keyword : jsstring) :
  well_formed keyword = true ->
  (forall past url, on_tabs w past url = true) ->
  snd (run w [] (Deep.searchForBibTex keyword)) = Fulfilled tt.
Proof.
  intros Hwf Htabs.
  assert (Hclean : well_formed (Deep.cleanKeyword keyword) = true).
  { unfold Deep.cleanKeyword, replace_spaces.
    apply (@well_formed_replace_runs_bounded (js "+")
             (List.length (trim keyword)) eq_refl); [lia|].
    now apply well_formed_trim. }
  destruct (@well_formed_encodes_bounded
              (List.length (Deep.cleanKeyword keyword))
              (Deep.cleanKeyword keyword) ltac:(lia) Hclean) as [encoded Henc].
  apply (@fulfilled_when_fallback_opens w keyword encoded Henc).
  intros past. apply Htabs.
Qed.

Lemma well_formed_keyword_is_fulfilled_witness :
  snd (run (scripted NetworkFailure NetworkFailure true) []
           (Deep.searchForBibTex [55357; 56832; 32; 97]))
  = Fulfilled tt.
Proof.
  apply (@well_formed_keyword_is_fulfilled
           (scripted NetworkFailure NetworkFailure true)
           [55357; 56832; 32; 97]).
  - reflexivity.
  - intros past url. reflexivity.
Defined.

(** X23.  An identifier that is the empty string (the result URL being
    nothing but the marker [#f]) counts as no identifier: no citation request
    is made, the search page is asked for and, the tab open, the notification
    for a manual search is shown. *)
Theorem empty_identifier_falls_back
        (w : world) (keyword encoded searchText : jsstring) :
  keyword <> [] ->
  encodeURIComponent (Deep.cleanKeyword keyword) = Some encoded ->
  on_fetch w [] (Deep.searchUrl encoded) = Response true (Some searchText) ->
  Deep.extractPaperIdFromResponse searchText = Some [] ->
  on_tabs w [EvFetch (Deep.searchUrl encoded)]
          (Some (JStr (Deep.scholarUrl encoded))) = true ->
  run w [] (Deep.searchForBibTex keyword)
  = ([EvFetch (Deep.searchUrl encoded);
      EvTab (Some (JStr (Deep.scholarUrl encoded)));
      EvNotify (js "SelectCite") (Deep.manual_message keyword)],
     Fulfilled tt).
Proof.
  intros Hne Henc Hfetch Hid Htab.
  rewrite (run_searchForBibTex w Hne Henc Hfetch), Hid.
  rewrite run_bind, (run_openScholarSearch w keyword Henc), Htab.
  rewrite run_notify. reflexivity.
Qed.

Lemma empty_identifier_falls_back_witness :
  run (scripted
         (Response true
            (Some (jsq "window.googleSearchResponse = {'r':[{'l':{'f':{'u':'#f'}}}]};")))
         NetworkFailure true)
      [] (Deep.searchForBibTex (js "a paper"))
  = ([EvFetch (Deep.searchUrl (js "a%2Bpaper"));
      EvTab (Some (JStr (Deep.scholarUrl (js "a%2Bpaper"))));
      EvNotify (js "SelectCite") (Deep.manual_message (js "a paper"))],
     Fulfilled tt).
Proof.
  apply (@empty_identifier_falls_back
           (scripted
              (Response true
                 (Some (jsq "window.googleSearchResponse = {'r':[{'l':{'f':{'u':'#f'}}}]};")))
              NetworkFailure true)
           (js "a paper") (js "a%2Bpaper")
           (jsq "window.googleSearchResponse = {'r':[{'l':{'f':{'u':'#f'}}}]};")).
  - discriminate.
  - vm_compute. reflexivity.
  - reflexivity.
  - vm_compute. reflexivity.
  - reflexivity.
Defined.
